(** * InsightsBackend: the section lookup service of [app.py]

    A shallow embedding of [app.py]: the section store ([load_sections],
    [index_by_section]), the key normaliser ([normalize_key]), the payload
    formatter ([format_payload]), the free-text resolver
    ([choose_section_with_llm]) and the request handlers.

    Conventions of the embedding.
    - A Python [str] is a [string] whose characters are read as code points
      below 256 (the Latin-1 range).  On that range [str.strip], [str.lower]
      and [str.replace] are the functions below; [str] values with code
      points from 256 on are outside the model.
    - A value read by [json.load] is a [value]; a Python [dict] literal of
      the handlers is a [VDict] with its items in source order.
    - Code that can raise returns a [result]; [try ... except Exception] is
      [try_except]. *)

From Stdlib Require Import ZArith String Ascii DecimalString List Bool Floats Sorted Permutation Lia.
From stdpp Require Import base option list gmap strings sorting.

Open Scope string_scope.
Open Scope Z_scope.

Set Warnings "-register-all".

(** ** Characters and strings *)

Module Str.

(** [str.isspace] on one character: the code points Python treats as
    whitespace below 256 (TAB..CR, FS..US, SPACE, NEL, NBSP). *)
Definition is_space (c : ascii) : bool :=
  let n := N_of_ascii c in
  ((9 <=? n) && (n <=? 13) || (28 <=? n) && (n <=? 32)
   || (n =? 133) || (n =? 160))%N.

(** [str.lower] on one character: A..Z and the Latin-1 capitals
    U+00C0..U+00DE (U+00D7, the multiplication sign, excepted) move up
    by 32; every other code point below 256 is its own lowercase. *)
Definition lower_char (c : ascii) : ascii :=
  let n := N_of_ascii c in
  if ((65 <=? n) && (n <=? 90)
      || (192 <=? n) && (n <=? 222) && negb (n =? 215))%N
  then ascii_of_N (n + 32) else c.

Fixpoint map (f : ascii -> ascii) (s : string) : string :=
  match s with
  | EmptyString => EmptyString
  | String c s' => String (f c) (map f s')
  end.

(** [s.lower()] *)
Definition lower (s : string) : string := map lower_char s.

(** [s.replace(old, new)] for one-character [old] and [new], the only
    form [app.py] uses. *)
Definition replace (old new : ascii) (s : string) : string :=
  map (fun c => if Ascii.eqb c old then new else c) s.

(** [s.lstrip()] *)
Fixpoint lstrip (s : string) : string :=
  match s with
  | EmptyString => EmptyString
  | String c s' => if is_space c then lstrip s' else s
  end.

(** [s.rstrip()] *)
Fixpoint rstrip (s : string) : string :=
  match s with
  | EmptyString => EmptyString
  | String c s' =>
      match rstrip s' with
      | EmptyString => if is_space c then EmptyString else String c EmptyString
      | r => String c r
      end
  end.

(** [s.strip()] *)
Definition strip (s : string) : string := rstrip (lstrip s).

(** Truth value of a [str]: non-empty. *)
Definition truthy (s : string) : bool :=
  match s with EmptyString => false | String _ _ => true end.

(** [sep.join(parts)] *)
Fixpoint join (sep : string) (parts : list string) : string :=
  match parts with
  | [] => ""
  | [p] => p
  | p :: rest => p ++ sep ++ join sep rest
  end.

(** First and last characters. *)
Definition head (s : string) : option ascii :=
  match s with EmptyString => None | String c _ => Some c end.

Fixpoint last (s : string) : option ascii :=
  match s with
  | EmptyString => None
  | String c EmptyString => Some c
  | String _ s' => last s'
  end.

(** A string that [strip] leaves alone: it neither starts nor ends with
    whitespace. *)
Definition trimmed (s : string) : Prop :=
  (forall c, head s = Some c -> is_space c = false) /\
  (forall c, last s = Some c -> is_space c = false).

(** [c in s] for one character. *)
Fixpoint has_char (c : ascii) (s : string) : bool :=
  match s with
  | EmptyString => false
  | String c' s' => Ascii.eqb c' c || has_char c s'
  end.

(** What [lower], then the two [replace] of [normalize_key], do to one
    character. *)
Definition norm_char (c : ascii) : ascii :=
  let l := lower_char c in
  let h := if Ascii.eqb l "-" then "_"%char else l in
  if Ascii.eqb h " " then "_"%char else h.

(** Case analysis over the 256 characters. *)
Ltac by_cases_on_char c :=
  destruct c as [[] [] [] [] [] [] [] []]; vm_compute; congruence.

End Str.

(** ** Helpers of [app.py] *)

(** [normalize_key]:
    [raw.strip().lower().replace("-", "_").replace(" ", "_")] *)
Definition normalize_key (raw : string) : string :=
  Str.replace " " "_" (Str.replace "-" "_" (Str.lower (Str.strip raw))).

(** ** Exceptions and results *)

(** The exceptions the code can meet; all derive from [Exception].
    [JSONDecodeError] is the [ValueError] subclass [json.load] raises;
    [ProviderError] stands for whatever the completion client raises
    (connection, authentication, rate limit, bad response). *)
Inductive exn :=
| FileNotFoundError (msg : string)
| ValueError (msg : string)
| JSONDecodeError (msg : string)
| AttributeError (type_name attr : string)
| IndexError (msg : string)
| KeyError (key : string)
| ProviderError (msg : string).

Inductive result (A : Type) :=
| Ok (a : A)
| Raise (e : exn).

Arguments Ok {A} a.
Arguments Raise {A} e.

Definition bind {A B : Type} (m : result A) (k : A -> result B) : result B :=
  match m with
  | Ok a => k a
  | Raise e => Raise e
  end.

Notation "'let*' x ':=' m 'in' k" := (bind m (fun x => k))
  (at level 10, x name, m at level 100, k at level 200).

(** [try: body  except Exception: handler] *)
Definition try_except {A : Type} (body : result A) (handler : exn -> result A)
  : result A :=
  match body with
  | Ok a => Ok a
  | Raise e => handler e
  end.

(** ** Python values *)

(** What [json.load] and [request.get_json] produce. *)
Inductive value :=
| VNone
| VBool (b : bool)
| VInt (n : Z)
| VFloat (x : float)
| VStr (s : string)
| VList (items : list value)
| VDict (items : list (string * value)).

(** [type(v).__name__] *)
Definition type_name (v : value) : string :=
  match v with
  | VNone => "NoneType"
  | VBool _ => "bool"
  | VInt _ => "int"
  | VFloat _ => "float"
  | VStr _ => "str"
  | VList _ => "list"
  | VDict _ => "dict"
  end.

(** [bool(v)]: what [if v], [not v] and [v or w] test. *)
Definition truthy (v : value) : bool :=
  match v with
  | VNone => false
  | VBool b => b
  | VInt n => negb (n =? 0)
  | VFloat x => negb (PrimFloat.eqb x 0%float)
  | VStr s => Str.truthy s
  | VList items => match items with [] => false | _ => true end
  | VDict items => match items with [] => false | _ => true end
  end.

(** [isinstance(v, dict)] *)
Definition is_object (v : value) : bool :=
  match v with VDict _ => true | _ => false end.

(** A [dict] with [str] keys: its items in insertion order. *)
Module Dict.

Definition t : Type := list (string * value).

(** [d.get(k)], [None] of Rocq for a missing key. *)
Fixpoint get (k : string) (d : t) : option value :=
  match d with
  | [] => None
  | (k', v) :: d' => if String.eqb k' k then Some v else get k d'
  end.

(** [d[k] = v]: an existing key keeps its place. *)
Fixpoint set (k : string) (v : value) (d : t) : t :=
  match d with
  | [] => [(k, v)]
  | (k', v') :: d' =>
      if String.eqb k' k then (k, v) :: d' else (k', v') :: set k v d'
  end.

(** [d.update(d2)] *)
Definition update (d d2 : t) : t :=
  fold_left (fun acc kv => set (fst kv) (snd kv) acc) d2 d.

(** The dict display [{**d1, **d2}]. *)
Definition merge (d1 d2 : t) : t := update (update [] d1) d2.

Definition has_key (k : string) (d : t) : bool :=
  match get k d with Some _ => true | None => false end.

End Dict.

(** [obj.get(key, default)]: a method of [dict] only. *)
Definition method_get (obj : value) (key : string) (default : value)
  : result value :=
  match obj with
  | VDict d =>
      Ok (match Dict.get key d with Some v => v | None => default end)
  | _ => Raise (AttributeError (type_name obj) "get")
  end.

(** [d[key]] on a dict. *)
Definition subscript (d : Dict.t) (key : string) : result value :=
  match Dict.get key d with
  | Some v => Ok v
  | None => Raise (KeyError key)
  end.

(** [repr] of the values [str()] does not print itself: floats and
    containers.  A builtin of the interpreter, taken as given. *)
Class Repr := repr : value -> string.

(** [str(int)] *)
Definition str_of_int (n : Z) : string :=
  NilZero.string_of_int (Z.to_int n).

(** [str(v)] *)
Definition py_str `{Repr} (v : value) : string :=
  match v with
  | VStr s => s
  | VNone => "None"
  | VBool true => "True"
  | VBool false => "False"
  | VInt n => str_of_int n
  | _ => repr v
  end.

(** The order of [str]: lexicographic on code points. *)
Definition str_le (x y : string) : Prop := String.leb x y = true.

#[global] Instance str_le_dec : RelDecision str_le.
Proof. intros x y. unfold str_le. apply _. Defined.

(** [sorted(keys)] *)
Definition sorted (keys : list string) : list string :=
  merge_sort str_le keys.

(** ** Data loading *)

(** A file, seen through [json.load]: a document that parses to a value,
    or text that does not parse. *)
Inductive file :=
| Document (data : value)
| Malformed (msg : string).

(** The paths that exist ([os.path.exists]) and what they hold. *)
Definition filesystem : Type := string -> option file.

(** [json.load(f)] *)
Definition json_load (f : file) : result value :=
  match f with
  | Document data => Ok data
  | Malformed msg => Raise (JSONDecodeError msg)
  end.

(** [load_sections] *)
Definition load_sections (fs : filesystem) (path : string)
  : result (list value) :=
  match fs path with
  | None => Raise (FileNotFoundError ("DATA_PATH not found: " ++ path))
  | Some f =>
      let* data := json_load f in
      match data with
      | VList items => Ok items
      | _ => Raise (ValueError
                      "Top-level JSON must be a list of section objects.")
      end
  end.

(** The body of the [for entry in sections] loop of [index_by_section],
    [out] being the dict built so far. *)
Fixpoint index_loop `{Repr} (sections : list value) (out : gmap string value)
  : result (gmap string value) :=
  match sections with
  | [] => Ok out
  | entry :: rest =>
      let* v := method_get entry "section" (VStr "") in
      let name := Str.strip (py_str v) in
      if Str.truthy name
      then index_loop rest (<[Str.lower name := entry]> out)
      else index_loop rest out
  end.

(** [index_by_section] *)
Definition index_by_section `{Repr} (sections : list value)
  : result (gmap string value) :=
  index_loop sections ∅.

(** [sorted(index.keys())] *)
Definition sorted_keys (index : gmap string value) : list string :=
  sorted (fst <$> map_to_list index).

(** ** The completion client *)

Module OpenAI.

Record message := { role : string; content : string }.

(** The keyword arguments of [client.chat.completions.create]. *)
Record chat_request := {
  model : string;
  messages : list message;
  temperature : float;
  max_tokens : Z
}.

(** [resp.choices[i].message.content], the one field the code reads. *)
Record choice := { message_content : option string }.

Record chat_response := { choices : list choice }.

(** A configured client: what one call answers, or the exception it
    raises. *)
Definition client : Type := chat_request -> result chat_response.

End OpenAI.

(** ** Configuration and module state *)

(** The module-level settings, as read from the environment at import.
    [OPENAI_MODEL] is the environment variable itself (read at each call);
    [client] is [None] without an API key or when building the client
    failed. *)
Record config := {
  DATA_PATH : string;
  DEFAULT_SECTION : string;
  DEFAULT_GREETING : string;
  OPENAI_MODEL : option string;
  client : option OpenAI.client
}.

(** The module globals computed once at import. *)
Record app := {
  cfg : config;
  SECTIONS_RAW : list value;
  SECTIONS_BY_NAME : gmap string value;
  SECTION_KEYS : list string
}.

(** Module initialisation: lines 68 to 70. *)
Definition startup `{Repr} (c : config) (fs : filesystem) : result app :=
  let* raw := load_sections fs (DATA_PATH c) in
  let* by_name := index_by_section raw in
  Ok {| cfg := c;
        SECTIONS_RAW := raw;
        SECTIONS_BY_NAME := by_name;
        SECTION_KEYS := sorted_keys by_name |}.

(** ** Payload formatter *)

Definition keys_value (keys : list string) : value := VList (VStr <$> keys).

(** The dict [format_payload] returns for a section it does not find. *)
Definition not_found_payload (a : app) (section_name : string) : Dict.t :=
  [ ("ok", VBool false);
    ("error", VStr ("Section '" ++ section_name ++ "' not found."));
    ("available_sections", keys_value (SECTION_KEYS a)) ].

(** [format_payload] *)
Definition format_payload (a : app) (section_name : string) : result Dict.t :=
  let section_key := normalize_key section_name in
  let section :=
    match SECTIONS_BY_NAME a !! section_key with
    | Some entry => entry
    | None => VNone
    end in
  if negb (truthy section) then Ok (not_found_payload a section_name)
  else
    let* s := method_get section "section" VNone in
    let* p := method_get section "period" VNone in
    let* m := method_get section "metrics" (VDict []) in
    Ok [ ("ok", VBool true); ("section", s); ("period", p); ("metrics", m) ].

(** ** Free-text resolver *)

(** The line feed. *)
Definition nl : string := String (ascii_of_N 10) "".

Definition brief_help : list (string * string) :=
  [ ("overview_core", "Overall KPIs across the program");
    ("human_engagement_trends", "Human feedback, escalations, reviews");
    ("agent_learning_progress",
     "Learning, models improving, training velocity");
    ("operations_impact", "Ops metrics and efficiency");
    ("roi_quarter", "Return on investment (quarterly)");
    ("roi_annual", "Return on investment (annual)");
    ("sales_impact", "Sales impact, revenue, pipeline, conversions") ].

(** [brief_help.get(k, 'No desc')] *)
Fixpoint brief_help_get (k : string) (table : list (string * string))
  : string :=
  match table with
  | [] => "No desc"
  | (k', d) :: rest => if String.eqb k' k then d else brief_help_get k rest
  end.

Definition candidates_text (candidate_keys : list string) : string :=
  Str.join nl
    ((fun k => "- " ++ k ++ ": " ++ brief_help_get k brief_help)
       <$> candidate_keys).

Definition system_prompt : string :=
  "You select exactly one canonical section key from a fixed list. "
  ++ "Return ONLY the key, nothing else. If unsure, pick the closest.".

Definition user_prompt (query : string) (candidate_keys : list string)
  : string :=
  "User question/label: " ++ query ++ nl ++ nl
  ++ "Choose one of these keys that best matches the user's intent:" ++ nl
  ++ candidates_text candidate_keys ++ nl ++ nl
  ++ "Return ONLY the key.".

(** The request [choose_section_with_llm] sends. *)
Definition chat_request_for (c : config) (query : string)
    (candidate_keys : list string) : OpenAI.chat_request :=
  {| OpenAI.model :=
       match OPENAI_MODEL c with Some m => m | None => "gpt-4o-mini" end;
     OpenAI.messages :=
       [ {| OpenAI.role := "system"; OpenAI.content := system_prompt |};
         {| OpenAI.role := "user";
            OpenAI.content := user_prompt query candidate_keys |} ];
     OpenAI.temperature := 0%float;
     OpenAI.max_tokens := 10 |}.

(** [choices[0]] *)
Definition first_choice (r : OpenAI.chat_response) : result OpenAI.choice :=
  match OpenAI.choices r with
  | ch :: _ => Ok ch
  | [] => Raise (IndexError "list index out of range")
  end.

(** [text_norm in candidate_keys] *)
Definition mem (k : string) (keys : list string) : bool :=
  existsb (String.eqb k) keys.

(** [choose_section_with_llm] *)
Definition choose_section_with_llm (c : config) (query : string)
    (candidate_keys : list string) : result (option string) :=
  match client c with
  | None => Ok None
  | Some cl =>
      try_except
        (let* resp := cl (chat_request_for c query candidate_keys) in
         let* ch := first_choice resp in
         let text :=
           Str.lower (Str.strip
             (match OpenAI.message_content ch with
              | Some s => if Str.truthy s then s else ""
              | None => ""
              end)) in
         let text_norm := normalize_key text in
         Ok (if mem text_norm candidate_keys then Some text_norm else None))
        (fun _ => Ok None)
  end.

(** ** Routes *)

Record response := { status : Z; body : value }.

(** [jsonify(d), code] *)
Definition jsonify (d : Dict.t) (code : Z) : response :=
  {| status := code; body := VDict d |}.

(** Truth value of an optional [str] ([request.args.get], the resolver's
    answer): [None] and the empty string are false. *)
Definition truthy_opt (o : option string) : bool :=
  match o with Some s => Str.truthy s | None => false end.

(** [payload.get("ok")] as a condition. *)
Definition payload_ok (payload : Dict.t) : bool :=
  match Dict.get "ok" payload with Some v => truthy v | None => false end.

(** [GET /] *)
Definition root_default (a : app) : result response :=
  let* payload := format_payload a (DEFAULT_SECTION (cfg a)) in
  if payload_ok payload then
    let* s := subscript payload "section" in
    let* p := subscript payload "period" in
    let* m := subscript payload "metrics" in
    Ok (jsonify [ ("message", VStr (DEFAULT_GREETING (cfg a)));
                  ("section", s); ("period", p); ("metrics", m) ] 200)
  else Ok (jsonify payload 404).

Definition unresolved_error : string :=
  "Could not infer a section from your query.".

(** [GET /metrics], with the query parameters [section] and [q]. *)
Definition get_metrics_query (a : app) (section q : option string)
  : result response :=
  if truthy_opt section then
    let* payload :=
      format_payload a (match section with Some s => s | None => "" end) in
    Ok (jsonify payload (if payload_ok payload then 200 else 404))
  else if truthy_opt q then
    let* chosen :=
      choose_section_with_llm (cfg a)
        (match q with Some s => s | None => "" end) (SECTION_KEYS a) in
    if negb (truthy_opt chosen) then
      Ok (jsonify
            [ ("ok", VBool false);
              ("error", VStr unresolved_error);
              ("available_sections", keys_value (SECTION_KEYS a));
              ("hint", VStr "Try specifying ?section=<one of the keys>.") ]
            400)
    else
      let* payload :=
        format_payload a (match chosen with Some k => k | None => "" end) in
      Ok (jsonify payload 200)
  else
    Ok (jsonify
          [ ("ok", VBool false);
            ("error", VStr "Provide either ?section=<key> or ?q=<free-text>");
            ("available_sections", keys_value (SECTION_KEYS a)) ]
          400).

(** [GET /metrics/<section_name>] *)
Definition get_metrics_path (a : app) (section_name : string)
  : result response :=
  let* payload := format_payload a section_name in
  Ok (jsonify payload (if payload_ok payload then 200 else 404)).

(** The 400 answer of [POST /ask] to a missing or blank [q]. *)
Definition missing_q : response :=
  jsonify [ ("ok", VBool false);
            ("error", VStr "Missing 'q' in JSON body.") ] 400.

(** [POST /ask]; [json] is [request.get_json(silent=True)], [VNone] when
    the body is absent or does not parse. *)
Definition ask_llm_router `{Repr} (a : app) (json : value) : result response :=
  let data := if truthy json then json else VDict [] in
  let* qv := method_get data "q" (VStr "") in
  let q := Str.strip (py_str qv) in
  if negb (Str.truthy q) then Ok missing_q
  else
    let* chosen := choose_section_with_llm (cfg a) q (SECTION_KEYS a) in
    if negb (truthy_opt chosen) then
      Ok (jsonify
            [ ("ok", VBool false);
              ("error", VStr unresolved_error);
              ("available_sections", keys_value (SECTION_KEYS a)) ]
            400)
    else
      let k := match chosen with Some k => k | None => "" end in
      let* payload := format_payload a k in
      let msg :=
        if String.eqb k "overview_core"
        then VStr (DEFAULT_GREETING (cfg a)) else VNone in
      Ok (jsonify
            (Dict.merge (if truthy msg then [("message", msg)] else [])
                        payload)
            200).

(** [GET /healthz] *)
Definition healthz : response := jsonify [ ("ok", VBool true) ] 200.

(** ** Invariants of the module state *)

(** What [index_by_section] guarantees of an entry stored under [k]: it
    is a dict with a [section] item, and [k] is the trimmed, lowercased
    [str()] of that item, which is not blank. *)
Definition indexed_under `{Repr} (k : string) (entry : value) : Prop :=
  exists d v,
    entry = VDict d /\ Dict.get "section" d = Some v /\
    Str.truthy (Str.strip (py_str v)) = true /\
    k = Str.lower (Str.strip (py_str v)).

(** The module state as [startup] leaves it. *)
Definition booted `{Repr} (a : app) : Prop :=
  map_Forall indexed_under (SECTIONS_BY_NAME a) /\
  SECTION_KEYS a = sorted_keys (SECTIONS_BY_NAME a).

(** ** Sample data

    The record of the scenario of the specification, a record whose name
    is already a key, and clients with a fixed behaviour. *)

(** An instance of [Repr] for the samples; none of them holds a float or
    a container where [str()] is taken. *)
Definition sample_repr : Repr := fun v => "<" ++ type_name v ++ ">".

Definition overview_record : value :=
  VDict [ ("section", VStr "Overview Core"); ("period", VStr "Q1");
          ("metrics", VDict [("x", VInt 1)]) ].

Definition roi_record : value :=
  VDict [ ("section", VStr "roi_annual"); ("period", VStr "2024");
          ("metrics", VDict [("roi", VInt 3)]) ].

Definition default_path : string := "data/ai_insights_sections.json".

(** A file system holding one document at [default_path]. *)
Definition fs_with (data : value) : filesystem :=
  fun path => if String.eqb path default_path then Some (Document data) else None.

(** A client that answers every request with [text]. *)
Definition answering (text : string) : OpenAI.client :=
  fun _ =>
    Ok {| OpenAI.choices := [ {| OpenAI.message_content := Some text |} ] |}.

(** A client whose every call fails. *)
Definition failing : OpenAI.client :=
  fun _ => Raise (ProviderError "Connection error.").

Definition sample_config (default_section : string)
    (cl : option OpenAI.client) : config :=
  {| DATA_PATH := default_path;
     DEFAULT_SECTION := default_section;
     DEFAULT_GREETING := "Hi Alisha";
     OPENAI_MODEL := None;
     client := cl |}.

(** A record named by its key. *)
Definition core_record : value :=
  VDict [ ("section", VStr "overview_core"); ("period", VStr "Q1");
          ("metrics", VDict [("x", VInt 1)]) ].

(** The module state over an empty data file, without a client. *)
Definition empty_app : app :=
  {| cfg := sample_config "overview_core" None;
     SECTIONS_RAW := [];
     SECTIONS_BY_NAME := ∅;
     SECTION_KEYS := [] |}.

(** The module state over the one record of the scenario. *)
Definition scenario_app `{Repr} : result app :=
  startup (sample_config "overview_core" None)
    (fs_with (VList [overview_record])).

(** ** Further module code and notions for the statements *)

(** Lines 22 to 29: the client is built only for a non-empty
    [OPENAI_API_KEY], and an exception while importing or building it
    leaves [client] at [None]. [make] stands for [OpenAI(api_key=...)]
    with its import. *)
Definition init_client (api_key : option string)
    (make : string -> result OpenAI.client) : option OpenAI.client :=
  if truthy_opt api_key then
    match make (default "" api_key) with
    | Ok cl => Some cl
    | Raise _ => None
    end
  else None.

(** Line 63 for a dict entry: [str(entry.get("section", "")).strip()]. *)
Definition section_name_of `{Repr} (d : Dict.t) : string :=
  Str.strip (py_str (default (VStr "") (Dict.get "section" d))).

(** The key under which the loop of [index_by_section] stores an entry:
    the lowercased [section_name_of] when that name is not empty; no key
    for an entry with a blank name. *)
Definition entry_key `{Repr} (entry : value) : option string :=
  match entry with
  | VDict d =>
      if Str.truthy (section_name_of d)
      then Some (Str.lower (section_name_of d)) else None
  | _ => None
  end.

(** [entry_key entry == k] *)
Definition stored_under `{Repr} (k : string) (entry : value) : bool :=
  match entry_key entry with
  | Some k' => String.eqb k' k
  | None => false
  end.

(** A field of the JSON object a route answers with. *)
Definition body_get (r : response) (key : string) : option value :=
  match body r with
  | VDict d => Dict.get key d
  | _ => None
  end.

(** A string that [strip] empties: whitespace only. *)
Definition blank (s : string) : Prop := Str.strip s = "".

(** Three records, the last of which renames the first one's key. *)
Definition sample_sections : list value :=
  [ core_record; roi_record;
    VDict [("section", VStr " Overview_Core "); ("period", VStr "Q2")] ].

(** * Properties *)

(** ** Strings *)

Module StrFacts.
Import Str.

Lemma lower_char_space c : is_space (lower_char c) = is_space c.
Proof. by_cases_on_char c. Qed.

Lemma lower_char_idem c : lower_char (lower_char c) = lower_char c.
Proof. by_cases_on_char c. Qed.

Lemma norm_char_idem c : norm_char (norm_char c) = norm_char c.
Proof. by_cases_on_char c. Qed.

Lemma norm_char_not_space c : is_space c = false -> is_space (norm_char c) = false.
Proof. by_cases_on_char c. Qed.

Lemma map_map f g s : map f (map g s) = map (fun c => f (g c)) s.
Proof. induction s as [|c s IH]; simpl; [reflexivity | now rewrite IH]. Qed.

Lemma map_ext f g s : (forall c, f c = g c) -> map f s = map g s.
Proof.
  intros E. induction s as [|c s IH]; simpl; [reflexivity | now rewrite E, IH].
Qed.

Lemma head_map f s : head (map f s) = option_map f (head s).
Proof. destruct s; reflexivity. Qed.

Lemma last_map f s : last (map f s) = option_map f (last s).
Proof.
  induction s as [|c s IH]; [reflexivity|].
  destruct s as [|d s]; [reflexivity|]. exact IH.
Qed.

Lemma truthy_map f s : truthy (map f s) = truthy s.
Proof. destruct s; reflexivity. Qed.

Lemma lstrip_head s c : head (lstrip s) = Some c -> is_space c = false.
Proof.
  induction s as [|d s IH]; simpl; [discriminate|].
  destruct (is_space d) eqn:E; [exact IH|].
  simpl. intros [= <-]. exact E.
Qed.

Lemma rstrip_head s c : head (rstrip s) = Some c -> head s = Some c.
Proof.
  destruct s as [|d s]; simpl; [discriminate|].
  destruct (rstrip s); [destruct (is_space d)|]; simpl; congruence.
Qed.

Lemma rstrip_last s c : last (rstrip s) = Some c -> is_space c = false.
Proof.
  induction s as [|d s IH]; simpl; [discriminate|].
  destruct (rstrip s) as [|e r] eqn:R.
  - destruct (is_space d) eqn:E; simpl; [discriminate|]. now intros [= <-].
  - exact IH.
Qed.

Lemma strip_trimmed s : trimmed (strip s).
Proof.
  split; intros c Hc.
  - apply rstrip_head in Hc. now apply lstrip_head in Hc.
  - now apply rstrip_last in Hc.
Qed.

Lemma lstrip_fixed s :
  (forall c, head s = Some c -> is_space c = false) -> lstrip s = s.
Proof.
  destruct s as [|d s]; simpl; [reflexivity|].
  intros Hd. now rewrite (Hd d eq_refl).
Qed.

Lemma rstrip_fixed s :
  (forall c, last s = Some c -> is_space c = false) -> rstrip s = s.
Proof.
  induction s as [|d s IH]; [reflexivity|].
  intros Hl. simpl. destruct s as [|e s].
  - simpl. now rewrite (Hl d eq_refl).
  - rewrite IH by exact Hl. reflexivity.
Qed.

Lemma strip_fixed s : trimmed s -> strip s = s.
Proof.
  intros [Hh Hl]. unfold strip. rewrite (lstrip_fixed s Hh). now apply rstrip_fixed.
Qed.

Lemma map_trimmed f s :
  (forall c, is_space c = false -> is_space (f c) = false) ->
  trimmed s -> trimmed (map f s).
Proof.
  intros Hf [Hh Hl]. split; intros c.
  - rewrite head_map. destruct (head s) as [d|]; simpl; [|discriminate].
    intros [= <-]. now apply Hf, Hh.
  - rewrite last_map. destruct (last s) as [d|]; simpl; [|discriminate].
    intros [= <-]. now apply Hf, Hl.
Qed.

End StrFacts.

(** [normalize_key] is one character map over the trimmed input. *)
Lemma normalize_key_map raw :
  normalize_key raw = Str.map Str.norm_char (Str.strip raw).
Proof.
  unfold normalize_key, Str.replace, Str.lower.
  rewrite !StrFacts.map_map. reflexivity.
Qed.

Lemma normalize_key_trimmed raw : Str.trimmed (normalize_key raw).
Proof.
  rewrite normalize_key_map.
  apply StrFacts.map_trimmed;
    [exact StrFacts.norm_char_not_space | apply StrFacts.strip_trimmed].
Qed.

Lemma normalize_key_idem raw : normalize_key (normalize_key raw) = normalize_key raw.
Proof.
  rewrite (normalize_key_map (normalize_key raw)).
  rewrite (StrFacts.strip_fixed _ (normalize_key_trimmed raw)).
  rewrite normalize_key_map, StrFacts.map_map.
  apply StrFacts.map_ext, StrFacts.norm_char_idem.
Qed.

(** C4. [normalize_key] is a total function on strings; applying it twice
    is the same as applying it once, and the three spellings of the
    overview key, with a capital and a space, with a hyphen and with an
    underscore, normalise to the same key. *)
Theorem normalize_key_idempotent_insensitive :
  (forall x : string, normalize_key (normalize_key x) = normalize_key x) /\
  normalize_key "Overview Core" = normalize_key "overview-core" /\
  normalize_key "overview-core" = normalize_key "overview_core".
Proof.
  split; [exact normalize_key_idem|]. split; reflexivity.
Qed.

(** ** The section index *)

Lemma index_loop_indexed `{Repr} sections out index :
  index_loop sections out = Ok index ->
  map_Forall indexed_under out -> map_Forall indexed_under index.
Proof.
  revert out. induction sections as [|entry rest IH]; simpl; intros out E Hout.
  - now injection E as <-.
  - destruct entry as [| | | | | |d]; simpl in E; try discriminate.
    destruct (Dict.get "section" d) as [v|] eqn:G.
    + destruct (Str.truthy (Str.strip (py_str v))) eqn:T.
      * apply (IH _ E). apply map_Forall_insert_2; [|exact Hout].
        exists d, v. auto.
      * now apply (IH _ E).
    + simpl in E. now apply (IH _ E).
Qed.

Lemma index_loop_app `{Repr} before after out :
  index_loop (before ++ after) out =
    let* mid := index_loop before out in index_loop after mid.
Proof.
  revert out. induction before as [|entry rest IH]; intros out; [reflexivity|].
  simpl. destruct (method_get entry "section" (VStr "")) as [v|]; simpl;
    [|reflexivity].
  destruct (Str.truthy (Str.strip (py_str v))); apply IH.
Qed.

(** A record with a blank name leaves the index as it was. *)
Lemma index_loop_skips_blank `{Repr} d before after out :
  Str.truthy (Str.strip (py_str (default (VStr "") (Dict.get "section" d))))
    = false ->
  index_loop (before ++ VDict d :: after) out = index_loop (before ++ after) out.
Proof.
  intros Hblank. rewrite !index_loop_app.
  destruct (index_loop before out) as [mid|]; simpl; [|reflexivity].
  destruct (Dict.get "section" d) as [v|]; [|reflexivity].
  simpl in Hblank. now rewrite Hblank.
Qed.

(** The record read last is the one stored under its key, whatever was
    stored there before; the key is the trimmed, lowercased name. *)
Lemma index_loop_last_wins `{Repr} d v before out index :
  Dict.get "section" d = Some v ->
  Str.truthy (Str.strip (py_str v)) = true ->
  index_loop (before ++ [VDict d]) out = Ok index ->
  index !! Str.lower (Str.strip (py_str v)) = Some (VDict d).
Proof.
  intros Hget Hname. rewrite index_loop_app.
  destruct (index_loop before out) as [mid|]; simpl; [|discriminate].
  rewrite Hget, Hname. intros [= <-]. apply lookup_insert_eq.
Qed.

Lemma index_by_section_indexed `{Repr} sections index :
  index_by_section sections = Ok index -> map_Forall indexed_under index.
Proof.
  intros E. apply (index_loop_indexed _ _ _ E), map_Forall_empty.
Qed.

Lemma startup_booted `{Repr} c fs a : startup c fs = Ok a -> booted a.
Proof.
  unfold startup. destruct (load_sections fs (DATA_PATH c)) as [raw|]; simpl;
    [|discriminate].
  destruct (index_by_section raw) as [index|] eqn:E; simpl; [|discriminate].
  intros [= <-]. split; simpl; [|reflexivity].
  now apply index_by_section_indexed with raw.
Qed.

Lemma startup_cfg `{Repr} c fs a : startup c fs = Ok a -> cfg a = c.
Proof.
  unfold startup. destruct (load_sections fs (DATA_PATH c)); simpl; [|discriminate].
  destruct (index_by_section _); simpl; [|discriminate]. now intros [= <-].
Qed.

Lemma indexed_under_truthy `{Repr} k entry :
  indexed_under k entry -> truthy entry = true /\ Str.truthy k = true.
Proof.
  intros (d & v & -> & G & T & ->). split.
  - destruct d; [discriminate | reflexivity].
  - unfold Str.lower. now rewrite StrFacts.truthy_map.
Qed.

(** ** The sorted key list *)

Lemma str_le_total : Total str_le.
Proof. intros x y. apply String.leb_total. Qed.

Lemma sorted_keys_In index k :
  In k (sorted_keys index) <-> is_Some (index !! k).
Proof.
  unfold sorted_keys, sorted. rewrite <- list_elem_of_In.
  rewrite merge_sort_Permutation, list_elem_of_fmap. split.
  - intros ([k' v] & -> & Hin). apply elem_of_map_to_list in Hin. now exists v.
  - intros [v Hv]. exists (k, v). split; [reflexivity|].
    now apply elem_of_map_to_list.
Qed.

Lemma sorted_keys_Sorted index : Sorted str_le (sorted_keys index).
Proof. apply (Sorted_merge_sort str_le (Total0 := str_le_total)). Qed.

Lemma sorted_keys_NoDup index : NoDup (sorted_keys index).
Proof.
  unfold sorted_keys, sorted. rewrite merge_sort_Permutation.
  apply NoDup_fst_map_to_list.
Qed.

Lemma mem_In k keys : mem k keys = true <-> In k keys.
Proof.
  unfold mem. rewrite existsb_exists. split.
  - intros (x & Hin & E). apply String.eqb_eq in E. now subst.
  - intros Hin. exists k. split; [exact Hin | apply String.eqb_refl].
Qed.

(** ** The payload formatter *)

Lemma format_payload_missing a section_name :
  SECTIONS_BY_NAME a !! normalize_key section_name = None ->
  format_payload a section_name = Ok (not_found_payload a section_name).
Proof. intros E. unfold format_payload. now rewrite E. Qed.

Lemma format_payload_found `{Repr} a section_name entry :
  booted a ->
  SECTIONS_BY_NAME a !! normalize_key section_name = Some entry ->
  exists d name,
    entry = VDict d /\ Dict.get "section" d = Some name /\
    format_payload a section_name =
      Ok [ ("ok", VBool true);
           ("section", name);
           ("period", default VNone (Dict.get "period" d));
           ("metrics", default (VDict []) (Dict.get "metrics" d)) ].
Proof.
  intros [Hall _] E.
  destruct (indexed_under_truthy _ _ (Hall _ _ E)) as [T _].
  destruct (Hall _ _ E) as (d & v & -> & G & _ & _).
  exists d, v. split; [reflexivity|]. split; [exact G|].
  unfold format_payload. rewrite E, T. simpl. rewrite G.
  destruct (Dict.get "period" d), (Dict.get "metrics" d); reflexivity.
Qed.

(** An index key that [normalize_key] leaves unchanged is served: asking
    for it returns the record stored under it. *)
Lemma fixed_key_reachable `{Repr} a k entry :
  booted a ->
  SECTIONS_BY_NAME a !! k = Some entry ->
  normalize_key k = k ->
  exists d name,
    entry = VDict d /\ Dict.get "section" d = Some name /\
    format_payload a k =
      Ok [ ("ok", VBool true);
           ("section", name);
           ("period", default VNone (Dict.get "period" d));
           ("metrics", default (VDict []) (Dict.get "metrics" d)) ].
Proof.
  intros Hb E Hfix. apply format_payload_found; [exact Hb|]. now rewrite Hfix.
Qed.

(** C6. Whatever string it is given, [format_payload] returns a dict and
    raises nothing. When the normalised input is a key of the index, the
    dict is [ok: True] with the entry's [section] (its display name),
    [period] and [metrics]; otherwise it is [ok: False] with the message
    that quotes the input as the caller wrote it, and
    [available_sections] is [SECTION_KEYS], which lists every key of the
    index, once each, in increasing order. *)
Theorem format_payload_total `{Repr} (c : config) (fs : filesystem) (a : app)
    (section_name : string) :
  startup c fs = Ok a ->
  match SECTIONS_BY_NAME a !! normalize_key section_name with
  | Some entry =>
      exists d name,
        entry = VDict d /\ Dict.get "section" d = Some name /\
        format_payload a section_name =
          Ok [ ("ok", VBool true);
               ("section", name);
               ("period", default VNone (Dict.get "period" d));
               ("metrics", default (VDict []) (Dict.get "metrics" d)) ]
  | None =>
      format_payload a section_name =
        Ok [ ("ok", VBool false);
             ("error", VStr ("Section '" ++ section_name ++ "' not found."));
             ("available_sections", VList (VStr <$> SECTION_KEYS a)) ]
  end /\
  Sorted str_le (SECTION_KEYS a) /\
  NoDup (SECTION_KEYS a) /\
  (forall k, In k (SECTION_KEYS a) <-> is_Some (SECTIONS_BY_NAME a !! k)).
Proof.
  intros Hs. pose proof (startup_booted _ _ _ Hs) as Hb. split.
  - destruct (SECTIONS_BY_NAME a !! normalize_key section_name) as [entry|] eqn:E.
    + exact (format_payload_found _ _ _ Hb E).
    + exact (format_payload_missing _ _ E).
  - destruct Hb as [_ ->].
    auto using sorted_keys_Sorted, sorted_keys_NoDup, sorted_keys_In.
Qed.

Lemma format_payload_total_witness :
  exists a,
    startup (H := sample_repr) (sample_config "overview_core" None)
      (fs_with (VList [roi_record; overview_record])) = Ok a /\
    format_payload a "ROI-Annual" =
      Ok [ ("ok", VBool true); ("section", VStr "roi_annual");
           ("period", VStr "2024"); ("metrics", VDict [("roi", VInt 3)]) ] /\
    format_payload a "bogus" =
      Ok [ ("ok", VBool false);
           ("error", VStr "Section 'bogus' not found.");
           ("available_sections",
            VList [VStr "overview core"; VStr "roi_annual"]) ].
Proof.
  eexists. split; [vm_compute; reflexivity|]. split.
  - destruct (format_payload_total (H := sample_repr)
                (sample_config "overview_core" None)
                (fs_with (VList [roi_record; overview_record])) _ "ROI-Annual"
                eq_refl) as [Hm _].
    vm_compute in Hm. destruct Hm as (d & name & [= <-] & [= <-] & Hf).
    vm_compute. exact Hf.
  - destruct (format_payload_total (H := sample_repr)
                (sample_config "overview_core" None)
                (fs_with (VList [roi_record; overview_record])) _ "bogus"
                eq_refl) as [Hm _].
    vm_compute in Hm. vm_compute. exact Hm.
Defined.

(** ** The free-text resolver *)

Lemma choose_without_client c query candidate_keys :
  client c = None -> choose_section_with_llm c query candidate_keys = Ok None.
Proof. intros E. unfold choose_section_with_llm. now rewrite E. Qed.

Lemma choose_returns c query candidate_keys :
  exists r, choose_section_with_llm c query candidate_keys = Ok r.
Proof.
  unfold choose_section_with_llm. destruct (client c) as [cl|]; [|now eexists].
  destruct (cl _) as [resp|e]; simpl; [|now eexists].
  destruct (first_choice resp) as [ch|e]; simpl; now eexists.
Qed.

(** A key the resolver returns is a candidate, and is the normalised form
    of some text. *)
Lemma choose_some c query candidate_keys k :
  choose_section_with_llm c query candidate_keys = Ok (Some k) ->
  In k candidate_keys /\ exists text, k = normalize_key text.
Proof.
  unfold choose_section_with_llm. destruct (client c) as [cl|]; [|discriminate].
  destruct (cl _) as [resp|e]; simpl; [|discriminate].
  destruct (first_choice resp) as [ch|e]; simpl; [|discriminate].
  match goal with |- context [mem ?t _] => destruct (mem t candidate_keys) eqn:M end;
    [|discriminate].
  intros [= <-]. split; [now apply mem_In | now eexists].
Qed.

(** C5. The resolver always returns, never raises, and what it returns is
    [None] or one of the candidate keys it was given. Without a client it
    returns [None]. When the call to the provider raises, the exception is
    caught and the resolver returns [None]; so is the [IndexError] of a
    response without choices. *)
Theorem choose_section_with_llm_safe (c : config) (query : string)
    (candidate_keys : list string) :
  (exists r,
     choose_section_with_llm c query candidate_keys = Ok r /\
     match r with Some k => In k candidate_keys | None => True end) /\
  (client c = None ->
   choose_section_with_llm c query candidate_keys = Ok None) /\
  (forall cl e,
     client c = Some cl ->
     cl (chat_request_for c query candidate_keys) = Raise e ->
     choose_section_with_llm c query candidate_keys = Ok None) /\
  (forall cl,
     client c = Some cl ->
     cl (chat_request_for c query candidate_keys)
       = Ok {| OpenAI.choices := [] |} ->
     choose_section_with_llm c query candidate_keys = Ok None).
Proof.
  split; [|split; [|split]].
  - destruct (choose_returns c query candidate_keys) as [r E].
    exists r. split; [exact E|]. destruct r as [k|]; [|exact I].
    now apply choose_some in E.
  - apply choose_without_client.
  - intros cl e Ec Er. unfold choose_section_with_llm. rewrite Ec, Er.
    reflexivity.
  - intros cl Ec Er. unfold choose_section_with_llm. rewrite Ec, Er.
    reflexivity.
Qed.

Lemma choose_section_with_llm_safe_witness :
  choose_section_with_llm (sample_config "overview_core" None)
    "how is the annual roi" ["overview_core"; "roi_annual"] = Ok None /\
  choose_section_with_llm (sample_config "overview_core" (Some failing))
    "how is the annual roi" ["overview_core"; "roi_annual"] = Ok None.
Proof.
  split.
  - exact (proj1 (proj2 (choose_section_with_llm_safe
                           (sample_config "overview_core" None)
                           "how is the annual roi"
                           ["overview_core"; "roi_annual"])) eq_refl).
  - exact (proj1 (proj2 (proj2 (choose_section_with_llm_safe
                                  (sample_config "overview_core" (Some failing))
                                  "how is the annual roi"
                                  ["overview_core"; "roi_annual"])))
             failing (ProviderError "Connection error.") eq_refl eq_refl).
Defined.

(** ** Resolution followed by formatting *)

Lemma format_payload_resolved `{Repr} a query k :
  booted a ->
  choose_section_with_llm (cfg a) query (SECTION_KEYS a) = Ok (Some k) ->
  In k (SECTION_KEYS a) /\ normalize_key k = k /\ Str.truthy k = true /\
  exists s p m,
    format_payload a k =
      Ok [ ("ok", VBool true); ("section", s); ("period", p); ("metrics", m) ].
Proof.
  intros Hb E. destruct (choose_some _ _ _ _ E) as [Hin [text ->]].
  pose proof (normalize_key_idem text) as Hfix.
  pose proof Hb as [Hall Hkeys]. rewrite Hkeys in Hin.
  apply sorted_keys_In in Hin. destruct Hin as [entry He].
  split; [rewrite Hkeys; apply sorted_keys_In; now exists entry|].
  split; [exact Hfix|]. split.
  - exact (proj2 (indexed_under_truthy _ _ (Hall _ _ He))).
  - rewrite <- Hfix in He.
    destruct (format_payload_found _ _ _ Hb He) as (d & name & _ & _ & Hf).
    eauto.
Qed.

Lemma format_payload_returns `{Repr} a section_name :
  booted a -> exists payload, format_payload a section_name = Ok payload.
Proof.
  intros Hb.
  destruct (SECTIONS_BY_NAME a !! normalize_key section_name) as [entry|] eqn:E.
  - destruct (format_payload_found _ _ _ Hb E) as (d & name & _ & _ & Hf). eauto.
  - rewrite (format_payload_missing _ _ E). eauto.
Qed.

Lemma get_metrics_query_by_text `{Repr} a section q :
  booted a -> truthy_opt section = false ->
  exists r, get_metrics_query a section q = Ok r /\
            (status r = 200 \/ status r = 400).
Proof.
  intros Hb Hs. unfold get_metrics_query. rewrite Hs.
  destruct (truthy_opt q); [|eexists; split; [reflexivity | now right]].
  destruct (choose_returns (cfg a) (match q with Some s => s | None => "" end)
              (SECTION_KEYS a)) as [chosen ->]. simpl.
  destruct (truthy_opt chosen); simpl;
    [|eexists; split; [reflexivity | now right]].
  destruct (format_payload_returns a
              (match chosen with Some k => k | None => "" end) Hb) as [p ->].
  simpl. eexists; split; [reflexivity | now left].
Qed.

Lemma ask_llm_router_status `{Repr} a json r :
  ask_llm_router a json = Ok r -> status r = 200 \/ status r = 400.
Proof.
  unfold ask_llm_router.
  destruct (method_get _ "q" _) as [qv|]; simpl; [|discriminate].
  destruct (Str.truthy (Str.strip (py_str qv))); simpl;
    [|intros [= <-]; now right].
  destruct (choose_section_with_llm _ _ _) as [chosen|]; simpl; [|discriminate].
  destruct (truthy_opt chosen); simpl; [|intros [= <-]; now right].
  destruct (format_payload _ _) as [p|]; simpl; [|discriminate].
  intros [= <-]. now left.
Qed.

(** C9. Once the module has started, a key [k] the resolver returns for a
    query is one of [SECTION_KEYS] and is left unchanged by
    [normalize_key], so [format_payload k] is an [ok: True] dict; then
    [GET /metrics?q=query] answers 200 with that dict, and [POST /ask]
    with a body whose trimmed [q] is the query answers 200 with a dict
    whose [ok] is [True]. Whatever the query, [GET /metrics] without a
    [section] parameter answers 200 or 400, and every answer of
    [POST /ask] is 200 or 400: neither answers 404. *)
Theorem resolved_key_is_served `{Repr} (c : config) (fs : filesystem)
    (a : app) :
  startup c fs = Ok a ->
  (forall query k,
     choose_section_with_llm (cfg a) query (SECTION_KEYS a) = Ok (Some k) ->
     In k (SECTION_KEYS a) /\
     normalize_key k = k /\
     exists s p m,
       format_payload a k =
         Ok [ ("ok", VBool true); ("section", s); ("period", p);
              ("metrics", m) ] /\
       (forall section,
          truthy_opt section = false -> Str.truthy query = true ->
          get_metrics_query a section (Some query) =
            Ok {| status := 200;
                  body := VDict [ ("ok", VBool true); ("section", s);
                                  ("period", p); ("metrics", m) ] |}) /\
       (forall d,
          Str.strip (py_str (default (VStr "") (Dict.get "q" d))) = query ->
          Str.truthy query = true ->
          exists items,
            ask_llm_router a (VDict d) =
              Ok {| status := 200; body := VDict items |} /\
            Dict.get "ok" items = Some (VBool true) /\
            Dict.get "section" items = Some s /\
            Dict.get "period" items = Some p /\
            Dict.get "metrics" items = Some m)) /\
  (forall section q,
     truthy_opt section = false ->
     exists r, get_metrics_query a section q = Ok r /\
               (status r = 200 \/ status r = 400)) /\
  (forall json r,
     ask_llm_router a json = Ok r -> status r = 200 \/ status r = 400).
Proof.
  intros Hs. pose proof (startup_booted _ _ _ Hs) as Hb.
  split; [|split].
  - intros query k E.
    destruct (format_payload_resolved _ _ _ Hb E)
      as (Hin & Hfix & Hk & s & p & m & Hf).
    split; [exact Hin|]. split; [exact Hfix|].
    exists s, p, m. split; [exact Hf|]. split.
    + intros section Hsec Hq. unfold get_metrics_query.
      rewrite Hsec. simpl. rewrite Hq, E. simpl. rewrite Hk. simpl.
      rewrite Hf. reflexivity.
    + intros d Hd Hq.
      assert (Hne : truthy (VDict d) = true).
      { destruct d; [|reflexivity]. simpl in Hd. subst query. discriminate. }
      assert (Hd' : Str.strip (py_str match Dict.get "q" d with
                                      | Some v => v
                                      | None => VStr ""
                                      end) = query)
        by (destruct (Dict.get "q" d); exact Hd).
      unfold ask_llm_router. rewrite Hne. simpl. rewrite Hd', Hq. simpl.
      rewrite E. simpl. rewrite Hk. simpl. rewrite Hf. simpl.
      destruct (String.eqb k "overview_core"); simpl.
      * destruct (Str.truthy (DEFAULT_GREETING (cfg a)));
          eexists; split; try reflexivity; repeat split.
      * eexists; split; [reflexivity | repeat split].
  - intros section q Hsec. now apply get_metrics_query_by_text.
  - intros json r. apply ask_llm_router_status.
Qed.

Lemma resolved_key_is_served_witness :
  exists a,
    startup (H := sample_repr)
      (sample_config "overview_core" (Some (answering " ROI-Annual ")))
      (fs_with (VList [roi_record; overview_record])) = Ok a /\
    choose_section_with_llm (cfg a) "how is the annual roi" (SECTION_KEYS a)
      = Ok (Some "roi_annual") /\
    get_metrics_query a None (Some "how is the annual roi") =
      Ok {| status := 200;
            body := VDict [ ("ok", VBool true);
                            ("section", VStr "roi_annual");
                            ("period", VStr "2024");
                            ("metrics", VDict [("roi", VInt 3)]) ] |}.
Proof.
  eexists. split; [vm_compute; reflexivity|].
  destruct (resolved_key_is_served (H := sample_repr)
              (sample_config "overview_core" (Some (answering " ROI-Annual ")))
              (fs_with (VList [roi_record; overview_record])) _ eq_refl)
    as [Hres _].
  match goal with |- ?G /\ _ => assert (E : G) by (vm_compute; reflexivity) end.
  split; [exact E|].
  destruct (Hres _ _ E) as (_ & _ & s & p & m & Hf & Hget & _).
  vm_compute in Hf. injection Hf as <- <- <-.
  exact (Hget None eq_refl eq_refl).
Defined.

(** ** [POST /ask] and the shape of its body *)

(** C10. When the JSON body of [POST /ask] is a true value that is not an
    object, a non-empty array or string or a non-zero number for
    instance, the handler raises [AttributeError] for the attribute [get]
    and returns no response. A false value is replaced by the empty dict
    and gets the 400 answer for a missing [q]; and a body that gets this
    answer is a false value or an object. *)
Theorem ask_llm_router_non_object_body `{Repr} (a : app) (json : value) :
  (truthy json = true -> is_object json = false ->
   ask_llm_router a json = Raise (AttributeError (type_name json) "get")) /\
  (truthy json = false -> ask_llm_router a json = Ok missing_q) /\
  (ask_llm_router a json = Ok missing_q ->
   truthy json = false \/ is_object json = true).
Proof.
  assert (Hraise : truthy json = true -> is_object json = false ->
            ask_llm_router a json = Raise (AttributeError (type_name json) "get")).
  { intros Ht Ho. unfold ask_llm_router. rewrite Ht.
    destruct json; try reflexivity; discriminate. }
  split; [exact Hraise|]. split.
  - intros Hf. unfold ask_llm_router. rewrite Hf. reflexivity.
  - intros E. destruct (truthy json) eqn:Ht; [|now left].
    destruct (is_object json) eqn:Ho; [now right|].
    rewrite (Hraise eq_refl eq_refl) in E. discriminate.
Qed.

Lemma ask_llm_router_non_object_body_witness :
  ask_llm_router (H := sample_repr) empty_app (VList [VInt 1])
    = Raise (AttributeError "list" "get") /\
  ask_llm_router (H := sample_repr) empty_app (VStr "overview")
    = Raise (AttributeError "str" "get") /\
  ask_llm_router (H := sample_repr) empty_app (VList []) = Ok missing_q.
Proof.
  pose proof (ask_llm_router_non_object_body (H := sample_repr) empty_app) as T.
  split; [|split].
  - exact (proj1 (T (VList [VInt 1])) eq_refl eq_refl).
  - exact (proj1 (T (VStr "overview")) eq_refl eq_refl).
  - exact (proj1 (proj2 (T (VList []))) eq_refl).
Defined.

(** ** Loading *)

(** C7, as the code has it. [load_sections] raises [FileNotFoundError]
    when the path does not exist, raises [ValueError] when the parsed
    document is not a list, and otherwise returns the parsed list as it
    is, whatever its elements are. *)
Theorem load_sections_outcomes (fs : filesystem) (path : string) :
  (fs path = None ->
   load_sections fs path
     = Raise (FileNotFoundError ("DATA_PATH not found: " ++ path))) /\
  (forall data,
     fs path = Some (Document data) ->
     (forall items, data <> VList items) ->
     load_sections fs path
       = Raise (ValueError
                  "Top-level JSON must be a list of section objects.")) /\
  (forall items,
     fs path = Some (Document (VList items)) ->
     load_sections fs path = Ok items).
Proof.
  unfold load_sections. split; [|split].
  - now intros ->.
  - intros data -> Hnl. simpl. destruct data; try reflexivity.
    now destruct (Hnl items).
  - now intros items ->.
Qed.

Lemma load_sections_outcomes_witness :
  load_sections (fs_with (VList [roi_record])) "missing.json"
    = Raise (FileNotFoundError "DATA_PATH not found: missing.json") /\
  load_sections (fs_with roi_record) default_path
    = Raise (ValueError "Top-level JSON must be a list of section objects.") /\
  load_sections (fs_with (VList [roi_record])) default_path = Ok [roi_record].
Proof.
  split; [|split].
  - exact (proj1 (load_sections_outcomes (fs_with (VList [roi_record]))
                    "missing.json") eq_refl).
  - refine (proj1 (proj2 (load_sections_outcomes (fs_with roi_record)
                            default_path)) roi_record eq_refl _).
    intros items. discriminate.
  - exact (proj2 (proj2 (load_sections_outcomes (fs_with (VList [roi_record]))
                           default_path)) [roi_record] eq_refl).
Defined.

(** C7, as the specification words it, fails: a list whose elements are
    not objects is not a sequence of objects, and [load_sections] returns
    it without a format error. The elements are first looked at by
    [index_by_section], which raises [AttributeError]. *)
Lemma load_sections_returns_non_objects :
  forallb is_object [VInt 1; VStr "two"] = false /\
  load_sections (fs_with (VList [VInt 1; VStr "two"])) default_path
    = Ok [VInt 1; VStr "two"] /\
  index_by_section (H := sample_repr) [VInt 1; VStr "two"]
    = Raise (AttributeError "int" "get").
Proof. repeat split. Qed.

(** ** The greeting of [POST /ask] *)

(** C8, as the code has it. For a [POST /ask] whose body is an object with
    a non-blank [q] that the resolver maps to the key [k], the answer is
    200, and its dict has a [message] exactly when [k] is the fixed key
    [overview_core] and the configured greeting is not the empty string;
    the message is then the configured greeting. [DEFAULT_SECTION] plays
    no part. *)
Theorem ask_llm_router_greeting `{Repr} (c : config) (fs : filesystem)
    (a : app) (d : Dict.t) (k : string) :
  startup c fs = Ok a ->
  Str.truthy (Str.strip (py_str (default (VStr "") (Dict.get "q" d)))) = true ->
  choose_section_with_llm (cfg a)
    (Str.strip (py_str (default (VStr "") (Dict.get "q" d))))
    (SECTION_KEYS a) = Ok (Some k) ->
  exists items,
    ask_llm_router a (VDict d) = Ok {| status := 200; body := VDict items |} /\
    (Dict.has_key "message" items = true <->
     k = "overview_core" /\ DEFAULT_GREETING (cfg a) <> "") /\
    (Dict.has_key "message" items = true ->
     Dict.get "message" items = Some (VStr (DEFAULT_GREETING (cfg a)))).
Proof.
  intros Hs Hq E. pose proof (startup_booted _ _ _ Hs) as Hb.
  destruct (format_payload_resolved _ _ _ Hb E)
    as (_ & _ & Hk & s & p & m & Hf).
  assert (Hne : truthy (VDict d) = true).
  { destruct d; [discriminate Hq | reflexivity]. }
  assert (Hmatch : forall o : option value,
            match o with Some v => v | None => VStr "" end
            = default (VStr "") o) by (now intros []).
  unfold ask_llm_router. rewrite Hne. simpl. rewrite Hmatch, Hq. simpl.
  rewrite E. simpl. rewrite Hk. simpl. rewrite Hf. simpl.
  destruct (String.eqb k "overview_core") eqn:Ek; simpl.
  - apply String.eqb_eq in Ek.
    destruct (DEFAULT_GREETING (cfg a)) as [|g0 g] eqn:Eg; simpl;
      eexists; (split; [reflexivity|]); (split; [|try discriminate]).
    + split; [discriminate | now intros [_ ?]].
    + split; [now split | reflexivity].
    + reflexivity.
  - apply String.eqb_neq in Ek.
    eexists; (split; [reflexivity|]); (split; [|discriminate]).
    split; [discriminate | now intros [? _]].
Qed.

Lemma ask_llm_router_greeting_witness :
  exists a,
    startup (H := sample_repr)
      (sample_config "roi_annual" (Some (answering "Overview Core")))
      (fs_with (VList [roi_record; core_record])) = Ok a /\
    ask_llm_router (H := sample_repr) a (VDict [("q", VStr " overview? ")]) =
      Ok {| status := 200;
            body := VDict [ ("message", VStr "Hi Alisha");
                            ("ok", VBool true);
                            ("section", VStr "overview_core");
                            ("period", VStr "Q1");
                            ("metrics", VDict [("x", VInt 1)]) ] |}.
Proof.
  eexists. split; [vm_compute; reflexivity|].
  destruct (ask_llm_router_greeting (H := sample_repr)
              (sample_config "roi_annual" (Some (answering "Overview Core")))
              (fs_with (VList [roi_record; core_record])) _
              [("q", VStr " overview? ")] "overview_core"
              eq_refl eq_refl eq_refl) as (items & Ha & Hm & Hg).
  pose proof Ha as Hv. vm_compute in Hv. injection Hv as Hv. subst items.
  exact Ha.
Defined.

(** C8, as the specification words it, fails. With [DEFAULT_SECTION] set
    to [roi_annual], a query resolved to [roi_annual], the configured
    default key, is answered 200 without a [message]. And with
    [DEFAULT_SECTION] left at [overview_core] but an empty
    [DEFAULT_GREETING], a query resolved to [overview_core] is answered
    without a [message] too. *)
Lemma ask_llm_router_no_greeting_for_default :
  (exists a,
     startup (H := sample_repr)
       (sample_config "roi_annual" (Some (answering "roi_annual")))
       (fs_with (VList [roi_record; core_record])) = Ok a /\
     DEFAULT_SECTION (cfg a) = "roi_annual" /\
     choose_section_with_llm (cfg a) "annual roi" (SECTION_KEYS a)
       = Ok (Some "roi_annual") /\
     ask_llm_router (H := sample_repr) a (VDict [("q", VStr "annual roi")]) =
       Ok {| status := 200;
             body := VDict [ ("ok", VBool true);
                             ("section", VStr "roi_annual");
                             ("period", VStr "2024");
                             ("metrics", VDict [("roi", VInt 3)]) ] |}) /\
  (exists a,
     startup (H := sample_repr)
       {| DATA_PATH := default_path;
          DEFAULT_SECTION := "overview_core";
          DEFAULT_GREETING := "";
          OPENAI_MODEL := None;
          client := Some (answering "overview_core") |}
       (fs_with (VList [roi_record; core_record])) = Ok a /\
     DEFAULT_SECTION (cfg a) = "overview_core" /\
     choose_section_with_llm (cfg a) "overview" (SECTION_KEYS a)
       = Ok (Some "overview_core") /\
     ask_llm_router (H := sample_repr) a (VDict [("q", VStr "overview")]) =
       Ok {| status := 200;
             body := VDict [ ("ok", VBool true);
                             ("section", VStr "overview_core");
                             ("period", VStr "Q1");
                             ("metrics", VDict [("x", VInt 1)]) ] |}).
Proof.
  split; (eexists; split; [vm_compute; reflexivity|]); repeat split.
Qed.

(** ** Keys with a space or a hyphen *)

Lemma norm_char_no_separator c :
  Ascii.eqb (Str.norm_char c) " " = false /\
  Ascii.eqb (Str.norm_char c) "-" = false.
Proof. split; Str.by_cases_on_char c. Qed.

Lemma has_char_map_norm s :
  Str.has_char " " (Str.map Str.norm_char s) = false /\
  Str.has_char "-" (Str.map Str.norm_char s) = false.
Proof.
  induction s as [|c s [IHs IHh]]; simpl; [now split|].
  destruct (norm_char_no_separator c) as [-> ->]. now split.
Qed.

(** A normalised key holds neither a space nor a hyphen. *)
Lemma normalize_key_no_separator raw :
  Str.has_char " " (normalize_key raw) = false /\
  Str.has_char "-" (normalize_key raw) = false.
Proof. rewrite normalize_key_map. apply has_char_map_norm. Qed.

(** An index key that holds a space or a hyphen is no lookup's key. *)
Lemma separator_key_never_looked_up k raw :
  Str.has_char " " k = true \/ Str.has_char "-" k = true ->
  normalize_key raw <> k.
Proof.
  intros Hk <-. destruct (normalize_key_no_separator raw) as [Hs Hh].
  destruct Hk; congruence.
Qed.

(** C3, on the record of the scenario. [index_by_section] stores the
    record named [Overview Core] under the trimmed and lowercased name
    [overview core], space kept, and stores nothing under
    [normalize_key] of the name, which is [overview_core]. *)
Theorem index_by_section_keeps_separators `{Repr} :
  normalize_key "Overview Core" = "overview_core" /\
  exists index,
    index_by_section [overview_record] = Ok index /\
    index !! "overview core" = Some overview_record /\
    index !! normalize_key "Overview Core" = None /\
    sorted_keys index = ["overview core"].
Proof.
  split; [reflexivity|]. eexists. split; [reflexivity|].
  split; [|split]; vm_compute; reflexivity.
Qed.

(** C1, on the record of the scenario. After a successful start the index
    has the key [overview core]; [format_payload] of that key is the
    [ok: False] dict, and so is [format_payload] of every string: no
    input reaches the record. *)
Theorem indexed_key_not_reachable `{Repr} :
  exists a,
    scenario_app = Ok a /\
    In "overview core" (SECTION_KEYS a) /\
    SECTIONS_BY_NAME a !! "overview core" = Some overview_record /\
    format_payload a "overview core" =
      Ok [ ("ok", VBool false);
           ("error", VStr "Section 'overview core' not found.");
           ("available_sections", VList [VStr "overview core"]) ] /\
    forall section_name,
      format_payload a section_name =
        Ok [ ("ok", VBool false);
             ("error", VStr ("Section '" ++ section_name ++ "' not found."));
             ("available_sections", VList [VStr "overview core"]) ].
Proof.
  eexists. split; [vm_compute; reflexivity|].
  split; [vm_compute; auto|]. split; [vm_compute; reflexivity|].
  assert (Hall : forall section_name,
    format_payload
      {| cfg := sample_config "overview_core" None;
         SECTIONS_RAW := [overview_record];
         SECTIONS_BY_NAME := {[ "overview core" := overview_record ]};
         SECTION_KEYS := ["overview core"] |} section_name =
    Ok [ ("ok", VBool false);
         ("error", VStr ("Section '" ++ section_name ++ "' not found."));
         ("available_sections", VList [VStr "overview core"]) ]).
  { intros section_name. apply format_payload_missing. simpl.
    apply lookup_singleton_ne. intros E. symmetry in E. revert E.
    apply separator_key_never_looked_up. now left. }
  split; [exact (Hall "overview core") | exact Hall].
Qed.

(** C2, on the code. With the one record of the scenario loaded,
    [GET /metrics?section=overview_core] is answered 404, not 200, and
    both this answer and the one to [section=bogus] list the key
    [overview core], with a space, as the available section. *)
Theorem get_metrics_query_scenario `{Repr} :
  exists a,
    scenario_app = Ok a /\
    get_metrics_query a (Some "overview_core") None =
      Ok {| status := 404;
            body := VDict
              [ ("ok", VBool false);
                ("error", VStr "Section 'overview_core' not found.");
                ("available_sections", VList [VStr "overview core"]) ] |} /\
    get_metrics_query a (Some "bogus") None =
      Ok {| status := 404;
            body := VDict
              [ ("ok", VBool false);
                ("error", VStr "Section 'bogus' not found.");
                ("available_sections", VList [VStr "overview core"]) ] |}.
Proof.
  eexists. split; [vm_compute; reflexivity|]. split; vm_compute; reflexivity.
Qed.

(** * Further properties *)

(** ** More on strings *)

Module StrMore.
Import Str.


Lemma norm_lower_char c : norm_char (lower_char c) = norm_char c.
Proof. by_cases_on_char c. Qed.

Lemma hyphen_char_space c :
  is_space (if Ascii.eqb c "-" then "_"%char else c) = is_space c.
Proof. by_cases_on_char c. Qed.

Lemma norm_hyphen_char c :
  norm_char (if Ascii.eqb c "-" then "_"%char else c) = norm_char c.
Proof. by_cases_on_char c. Qed.

Lemma norm_char_fixed c :
  lower_char c = c -> Ascii.eqb c " " = false -> Ascii.eqb c "-" = false ->
  norm_char c = c.
Proof. intros Hl Hs Hh. unfold norm_char. now rewrite Hl, Hh, Hs. Qed.

Lemma lower_char_separator c :
  Ascii.eqb (lower_char c) " " = Ascii.eqb c " " /\
  Ascii.eqb (lower_char c) "-" = Ascii.eqb c "-".
Proof. split; by_cases_on_char c. Qed.

Lemma has_char_lower s :
  has_char " " (lower s) = has_char " " s /\
  has_char "-" (lower s) = has_char "-" s.
Proof.
  induction s as [|c s [IHs IHh]]; simpl; [now split|].
  destruct (lower_char_separator c) as [-> ->].
  unfold lower in IHs, IHh. now rewrite IHs, IHh.
Qed.





Lemma lstrip_map f s :
  (forall c, is_space (f c) = is_space c) -> lstrip (map f s) = map f (lstrip s).
Proof.
  intros Hf. induction s as [|c s IH]; simpl; [reflexivity|].
  rewrite Hf. destruct (is_space c); [exact IH | reflexivity].
Qed.

Lemma rstrip_map f s :
  (forall c, is_space (f c) = is_space c) -> rstrip (map f s) = map f (rstrip s).
Proof.
  intros Hf. induction s as [|c s IH]; simpl; [reflexivity|].
  rewrite IH, Hf. destruct (rstrip s); [destruct (is_space c)|]; reflexivity.
Qed.

Lemma strip_map f s :
  (forall c, is_space (f c) = is_space c) -> strip (map f s) = map f (strip s).
Proof.
  intros Hf. unfold strip. now rewrite lstrip_map, rstrip_map.
Qed.

Lemma strip_idem s : strip (strip s) = strip s.
Proof. apply StrFacts.strip_fixed, StrFacts.strip_trimmed. Qed.

Lemma map_fixed f s : (forall c, f (f c) = f c) -> map f (map f s) = map f s.
Proof.
  intros Hf. rewrite StrFacts.map_map. now apply StrFacts.map_ext.
Qed.

Lemma map_empty f s : map f s = "" <-> s = "".
Proof. destruct s; simpl; split; congruence. Qed.

Lemma truthy_empty s : truthy s = false <-> s = "".
Proof. destruct s; simpl; split; congruence. Qed.

Lemma map_norm_fixed s :
  lower s = s -> has_char " " s = false -> has_char "-" s = false ->
  map norm_char s = s.
Proof.
  unfold lower. induction s as [|c s IH]; simpl; [reflexivity|].
  intros [= Hc Hs] Hsp Hhy.
  apply Bool.orb_false_iff in Hsp as [Hc1 Hs1].
  apply Bool.orb_false_iff in Hhy as [Hc2 Hs2].
  rewrite (norm_char_fixed c Hc Hc1 Hc2). now rewrite (IH Hs Hs1 Hs2).
Qed.

End StrMore.

(** [normalize_key] does not see a character map that keeps whitespace
    whitespace and that [norm_char] absorbs. *)
Lemma normalize_key_absorbs f s :
  (forall c, Str.is_space (f c) = Str.is_space c) ->
  (forall c, Str.norm_char (f c) = Str.norm_char c) ->
  normalize_key (Str.map f s) = normalize_key s.
Proof.
  intros Hsp Hn. rewrite !normalize_key_map, StrMore.strip_map by exact Hsp.
  rewrite StrFacts.map_map. now apply StrFacts.map_ext.
Qed.

Lemma normalize_key_lower s : normalize_key (Str.lower s) = normalize_key s.
Proof.
  apply normalize_key_absorbs;
    [exact StrFacts.lower_char_space | exact StrMore.norm_lower_char].
Qed.

Lemma normalize_key_strip s : normalize_key (Str.strip s) = normalize_key s.
Proof. rewrite !normalize_key_map. now rewrite StrMore.strip_idem. Qed.

Lemma normalize_key_blank s : normalize_key s = "" <-> blank s.
Proof. rewrite normalize_key_map. apply StrMore.map_empty. Qed.

Lemma space_char_absorbed c :
  Str.norm_char (if Ascii.eqb c " " then "_"%char else c) = Str.norm_char c.
Proof. Str.by_cases_on_char c. Qed.

Lemma space_char_not_space c :
  Str.is_space c = false ->
  Str.is_space (if Ascii.eqb c " " then "_"%char else c) = false.
Proof. Str.by_cases_on_char c. Qed.


(** X2. [normalize_key] gives the same key for inputs that differ only in
    letter case, in whitespace around them, in hyphens written for
    underscores, or in spaces inside the trimmed text written for
    underscores; and the key is empty exactly for whitespace-only
    input. *)
Theorem normalize_key_insensitive (raw : string) :
  normalize_key (Str.lower raw) = normalize_key raw /\
  normalize_key (Str.strip raw) = normalize_key raw /\
  normalize_key (Str.replace "-" "_" raw) = normalize_key raw /\
  normalize_key (Str.replace " " "_" (Str.strip raw)) = normalize_key raw /\
  (normalize_key raw = "" <-> Str.strip raw = "").
Proof.
  split; [apply normalize_key_lower|]. split; [apply normalize_key_strip|].
  split; [|split].
  - apply normalize_key_absorbs;
      [exact StrMore.hyphen_char_space | exact StrMore.norm_hyphen_char].
  - rewrite (normalize_key_map raw), normalize_key_map. unfold Str.replace.
    rewrite StrFacts.strip_fixed.
    + rewrite StrFacts.map_map. apply StrFacts.map_ext, space_char_absorbed.
    + apply StrFacts.map_trimmed;
        [exact space_char_not_space | apply StrFacts.strip_trimmed].
  - apply normalize_key_blank.
Qed.

(** ** More on the section index *)

Lemma index_loop_step `{Repr} d rest out :
  index_loop (VDict d :: rest) out =
    index_loop rest
      (match entry_key (VDict d) with
       | Some k => <[k := VDict d]> out
       | None => out
       end).
Proof.
  simpl. unfold section_name_of.
  destruct (Dict.get "section" d) as [v|]; simpl;
    [destruct (Str.truthy (Str.strip (py_str v)))|]; reflexivity.
Qed.

Lemma index_loop_non_object `{Repr} v rest out :
  is_object v = false ->
  index_loop (v :: rest) out = Raise (AttributeError (type_name v) "get").
Proof. destruct v; simpl; congruence. Qed.

Lemma index_loop_outcome `{Repr} sections out :
  match index_loop sections out with
  | Ok _ => forallb is_object sections = true
  | Raise e =>
      exists before v after,
        sections = (before ++ v :: after)%list /\
        forallb is_object before = true /\
        is_object v = false /\
        e = AttributeError (type_name v) "get"
  end.
Proof.
  revert out. induction sections as [|entry rest IH]; intros out;
    [reflexivity|].
  destruct (is_object entry) eqn:Ho.
  - destruct entry; try discriminate. rewrite index_loop_step.
    match goal with |- context [index_loop rest ?o] => specialize (IH o) end.
    destruct (index_loop rest _) as [index|e]; [exact IH|].
    destruct IH as (before & v & after & -> & Hb & Hv & ->).
    exists (VDict items :: before), v, after. auto.
  - rewrite (index_loop_non_object _ _ _ Ho).
    exists [], entry, rest. auto.
Qed.

Lemma find_snoc {A} (f : A -> bool) l x :
  find f (l ++ [x]) =
    match find f l with
    | Some y => Some y
    | None => if f x then Some x else None
    end.
Proof.
  induction l as [|y l IH]; simpl; [reflexivity|].
  destruct (f y); [reflexivity | exact IH].
Qed.

Lemma stored_under_key `{Repr} k entry :
  stored_under k entry = true <-> entry_key entry = Some k.
Proof.
  unfold stored_under. destruct (entry_key entry) as [k'|].
  - rewrite String.eqb_eq. split; congruence.
  - split; discriminate.
Qed.

Lemma index_loop_lookup `{Repr} sections out index k :
  index_loop sections out = Ok index ->
  index !! k =
    match find (stored_under k) (rev sections) with
    | Some entry => Some entry
    | None => out !! k
    end.
Proof.
  revert out. induction sections as [|entry rest IH]; intros out E.
  - injection E as <-. reflexivity.
  - destruct (is_object entry) eqn:Ho;
      [|rewrite (index_loop_non_object _ _ _ Ho) in E; discriminate].
    destruct entry; try discriminate. rewrite index_loop_step in E.
    rewrite (IH _ E). simpl rev. rewrite find_snoc.
    destruct (find (stored_under k) (rev rest)); [reflexivity|].
    destruct (stored_under k (VDict items)) eqn:Hk.
    + apply stored_under_key in Hk. rewrite Hk. apply lookup_insert_eq.
    + destruct (entry_key (VDict items)) as [k'|] eqn:Ek; [|reflexivity].
      apply lookup_insert_ne. intros ->.
      apply stored_under_key in Ek. congruence.
Qed.

Lemma index_loop_size `{Repr} sections out index :
  index_loop sections out = Ok index ->
  (size index <= size out + length sections)%nat.
Proof.
  revert out. induction sections as [|entry rest IH]; intros out E.
  - injection E as <-. simpl. lia.
  - destruct (is_object entry) eqn:Ho;
      [|rewrite (index_loop_non_object _ _ _ Ho) in E; discriminate].
    destruct entry; try discriminate. rewrite index_loop_step in E.
    apply IH in E. simpl length.
    destruct (entry_key (VDict items)) as [k|]; [|lia].
    pose proof (map_size_insert k (VDict items) out) as Hs.
    destruct (out !! k); simpl in Hs; lia.
Qed.

Lemma indexed_under_key `{Repr} k entry :
  indexed_under k entry <-> entry_key entry = Some k.
Proof.
  split.
  - intros (d & v & -> & G & T & ->). unfold entry_key, section_name_of.
    rewrite G. simpl. now rewrite T.
  - destruct entry as [| | | | | |d]; try discriminate.
    unfold entry_key, section_name_of.
    destruct (Dict.get "section" d) as [v|] eqn:G; simpl; [|discriminate].
    destruct (Str.truthy (Str.strip (py_str v))) eqn:T; [|discriminate].
    intros [= <-]. exists d, v. auto.
Qed.

(** The key of an entry is not empty, is trimmed and is lowercase. *)
Lemma entry_key_canonical `{Repr} entry k :
  entry_key entry = Some k ->
  k <> "" /\ Str.strip k = k /\ Str.lower k = k.
Proof.
  destruct entry as [| | | | | |d]; try discriminate. unfold entry_key.
  destruct (Str.truthy (section_name_of d)) eqn:T; [|discriminate].
  intros [= <-]. split; [|split].
  - intros E. apply StrMore.map_empty in E. rewrite E in T. discriminate.
  - apply StrFacts.strip_fixed, StrFacts.map_trimmed.
    + intros c. now rewrite StrFacts.lower_char_space.
    + apply StrFacts.strip_trimmed.
  - apply StrMore.map_fixed, StrFacts.lower_char_idem.
Qed.

(** X3. [index_by_section] succeeds exactly on a list whose elements are
    all objects; on any other list it raises the [AttributeError] of the
    first element that is not an object, for its attribute [get]. *)
Theorem index_by_section_outcome `{Repr} (sections : list value) :
  match index_by_section sections with
  | Ok _ => forallb is_object sections = true
  | Raise e =>
      exists before v after,
        sections = (before ++ v :: after)%list /\
        forallb is_object before = true /\
        is_object v = false /\
        e = AttributeError (type_name v) "get"
  end.
Proof. apply index_loop_outcome. Qed.

Lemma index_by_section_lookup_aux `{Repr} sections index k :
  index_by_section sections = Ok index ->
  index !! k = find (stored_under k) (rev sections).
Proof.
  intros E. rewrite (index_loop_lookup _ _ _ k E).
  destruct (find _ _); [reflexivity | apply lookup_empty].
Qed.

(** X4. What the index holds under a key is the last record of the input
    whose trimmed, lowercased name is that key, and nothing when no record
    has it. *)
Theorem index_by_section_lookup `{Repr} (sections : list value)
    (index : gmap string value) (k : string) :
  index_by_section sections = Ok index ->
  index !! k = find (stored_under k) (rev sections).
Proof. apply index_by_section_lookup_aux. Qed.

Lemma index_by_section_lookup_witness :
  exists index,
    index_by_section (H := sample_repr) sample_sections = Ok index /\
    index !! "overview_core"
      = Some (VDict [("section", VStr " Overview_Core "); ("period", VStr "Q2")]) /\
    index !! "sales_impact" = None.
Proof.
  eexists. split; [reflexivity|]. split.
  - etransitivity;
      [exact (index_by_section_lookup (H := sample_repr) sample_sections _
                "overview_core" eq_refl) | reflexivity].
  - etransitivity;
      [exact (index_by_section_lookup (H := sample_repr) sample_sections _
                "sales_impact" eq_refl) | reflexivity].
Defined.

Lemma canonical_key_fixed k :
  Str.strip k = k -> Str.lower k = k ->
  Str.has_char " " k = false -> Str.has_char "-" k = false ->
  normalize_key k = k.
Proof.
  intros Hs Hl Hsp Hhy. rewrite normalize_key_map, Hs.
  now apply StrMore.map_norm_fixed.
Qed.

(** X5. Every entry of the index is one of the input records, an object
    whose name is not blank, stored under its trimmed and lowercased
    name; so every key of the index is non-empty, has no whitespace at
    either end and is lowercase. *)
Theorem index_entries_from_input `{Repr} (sections : list value)
    (index : gmap string value) (k : string) (entry : value) :
  index_by_section sections = Ok index ->
  index !! k = Some entry ->
  In entry sections /\
  (exists d, entry = VDict d /\
             Str.truthy (section_name_of d) = true /\
             k = Str.lower (section_name_of d)) /\
  k <> "" /\ Str.strip k = k /\ Str.lower k = k.
Proof.
  intros E Hk. rewrite (index_by_section_lookup_aux _ _ k E) in Hk.
  apply find_some in Hk as [Hin Hst]. apply stored_under_key in Hst.
  split; [now apply in_rev|]. split; [|now apply entry_key_canonical with entry].
  destruct entry as [| | | | | |d]; try discriminate. exists d.
  unfold entry_key in Hst.
  destruct (Str.truthy (section_name_of d)); [|discriminate].
  injection Hst as <-. auto.
Qed.

Lemma index_entries_from_input_witness :
  exists index,
    index_by_section (H := sample_repr) sample_sections = Ok index /\
    index !! "roi_annual" = Some roi_record /\
    In roi_record sample_sections /\
    Str.strip "roi_annual" = "roi_annual".
Proof.
  eexists. split; [reflexivity|]. split; [reflexivity|].
  destruct (index_entries_from_input (H := sample_repr) sample_sections _
              "roi_annual" roi_record eq_refl eq_refl)
    as (Hin & _ & _ & Hs & _).
  split; [exact Hin | exact Hs].
Defined.

(** X6. The index has at most as many keys as the input has records, and
    the sorted key list has one element per key of the index. *)
Theorem index_size_bound `{Repr} (sections : list value)
    (index : gmap string value) :
  index_by_section sections = Ok index ->
  length (sorted_keys index) = size index /\
  (length (sorted_keys index) <= length sections)%nat.
Proof.
  intros E. apply index_loop_size in E. rewrite map_size_empty in E.
  assert (Hlen : length (sorted_keys index) = size index).
  { unfold sorted_keys, sorted.
    rewrite (Permutation_length (merge_sort_Permutation _ _)).
    now rewrite length_fmap, length_map_to_list. }
  split; [exact Hlen | lia].
Qed.

Lemma index_size_bound_witness :
  exists index,
    index_by_section (H := sample_repr) sample_sections = Ok index /\
    length (sorted_keys index) = 2%nat /\
    (length (sorted_keys index) <= length sample_sections)%nat.
Proof.
  eexists. split; [reflexivity|]. split; [vm_compute; reflexivity|].
  exact (proj2 (index_size_bound (H := sample_repr) sample_sections _ eq_refl)).
Defined.

(** ** Start-up *)


(** ** Which records can be asked for *)

(** X8. A record whose trimmed name holds a space or a hyphen is stored
    under a key that holds it too, and [normalize_key] returns that key
    for no input: no request looks the record up under its key. *)
Theorem separator_name_never_looked_up `{Repr} (d : Dict.t) :
  Str.has_char " " (section_name_of d) = true \/
  Str.has_char "-" (section_name_of d) = true ->
  entry_key (VDict d) = Some (Str.lower (section_name_of d)) /\
  forall raw, normalize_key raw <> Str.lower (section_name_of d).
Proof.
  intros Hsep. split.
  - unfold entry_key. destruct (section_name_of d); [|reflexivity].
    destruct Hsep; discriminate.
  - intros raw. apply separator_key_never_looked_up.
    destruct (StrMore.has_char_lower (section_name_of d)) as [-> ->].
    exact Hsep.
Qed.

Lemma separator_name_never_looked_up_witness :
  entry_key (H := sample_repr) overview_record = Some "overview core" /\
  normalize_key "Overview Core" <> "overview core".
Proof.
  destruct (separator_name_never_looked_up (H := sample_repr)
              [ ("section", VStr "Overview Core"); ("period", VStr "Q1");
                ("metrics", VDict [("x", VInt 1)]) ]
              (or_introl eq_refl)) as [Hk Hn].
  split; [exact Hk | exact (Hn "Overview Core")].
Defined.

(** X9. After start-up, a key listed in [SECTION_KEYS] that holds no space
    and no hyphen can be asked for as it is listed:
    [GET /metrics/<key>] answers 200 with the record stored under it. *)
Theorem separator_free_key_served `{Repr} (c : config) (fs : filesystem)
    (a : app) (k : string) :
  startup c fs = Ok a ->
  In k (SECTION_KEYS a) ->
  Str.has_char " " k = false ->
  Str.has_char "-" k = false ->
  exists d name,
    SECTIONS_BY_NAME a !! k = Some (VDict d) /\
    Dict.get "section" d = Some name /\
    get_metrics_path a k =
      Ok {| status := 200;
            body := VDict
              [ ("ok", VBool true);
                ("section", name);
                ("period", default VNone (Dict.get "period" d));
                ("metrics", default (VDict []) (Dict.get "metrics" d)) ] |}.
Proof.
  intros Hs Hin Hsp Hhy. pose proof (startup_booted _ _ _ Hs) as Hb.
  pose proof Hb as [Hall Hkeys]. rewrite Hkeys in Hin.
  apply sorted_keys_In in Hin as [entry He].
  pose proof (Hall _ _ He) as Hu. apply indexed_under_key in Hu.
  destruct (entry_key_canonical _ _ Hu) as (_ & Hst & Hl).
  pose proof (canonical_key_fixed k Hst Hl Hsp Hhy) as Hfix.
  destruct (fixed_key_reachable a k entry Hb He Hfix)
    as (d & name & -> & Hn & Hf).
  exists d, name. split; [exact He|]. split; [exact Hn|].
  unfold get_metrics_path. rewrite Hf. reflexivity.
Qed.

Lemma separator_free_key_served_witness :
  exists a,
    startup (H := sample_repr) (sample_config "overview_core" None)
      (fs_with (VList sample_sections)) = Ok a /\
    get_metrics_path a "roi_annual" =
      Ok {| status := 200;
            body := VDict [ ("ok", VBool true);
                            ("section", VStr "roi_annual");
                            ("period", VStr "2024");
                            ("metrics", VDict [("roi", VInt 3)]) ] |}.
Proof.
  eexists. split; [vm_compute; reflexivity|].
  destruct (separator_free_key_served (H := sample_repr)
              (sample_config "overview_core" None)
              (fs_with (VList sample_sections)) _ "roi_annual" eq_refl)
    as (d & name & Hd & Hn & Hg);
    [vm_compute; auto | reflexivity | reflexivity |].
  vm_compute in Hd. injection Hd as <-. vm_compute in Hn. injection Hn as <-.
  exact Hg.
Defined.

(** ** The lookup routes *)

Lemma format_payload_cases `{Repr} a section_name :
  booted a ->
  (exists entry s p m,
     SECTIONS_BY_NAME a !! normalize_key section_name = Some entry /\
     format_payload a section_name =
       Ok [ ("ok", VBool true); ("section", s); ("period", p);
            ("metrics", m) ]) \/
  (SECTIONS_BY_NAME a !! normalize_key section_name = None /\
   format_payload a section_name = Ok (not_found_payload a section_name)).
Proof.
  intros Hb.
  destruct (SECTIONS_BY_NAME a !! normalize_key section_name) as [entry|] eqn:E.
  - left. destruct (format_payload_found _ _ _ Hb E) as (d & name & _ & _ & Hf).
    eauto 10.
  - right. split; [reflexivity | now apply format_payload_missing].
Qed.

Lemma format_payload_same_key `{Repr} a s1 s2 :
  booted a ->
  normalize_key s1 = normalize_key s2 ->
  is_Some (SECTIONS_BY_NAME a !! normalize_key s1) ->
  format_payload a s1 = format_payload a s2.
Proof.
  intros Hb Hk [entry He].
  destruct (format_payload_found _ _ _ Hb He) as (d & name & -> & Hn & ->).
  rewrite Hk in He.
  destruct (format_payload_found _ _ _ Hb He)
    as (d' & name' & [= <-] & Hn' & ->).
  congruence.
Qed.

Lemma empty_key_absent `{Repr} a : booted a -> SECTIONS_BY_NAME a !! "" = None.
Proof.
  intros [Hall _]. destruct (SECTIONS_BY_NAME a !! "") as [entry|] eqn:E;
    [|reflexivity].
  destruct (indexed_under_truthy _ _ (Hall _ _ E)) as [_ Hk]. discriminate.
Qed.

(** X10. After start-up [GET /metrics/<name>] never raises. It answers 200
    with [ok: True] exactly when the normalised name is a key of the
    index, and otherwise 404 with [ok: False], the message quoting the
    name as it was sent, and the sorted list of keys. *)
Theorem get_metrics_path_status `{Repr} (c : config) (fs : filesystem)
    (a : app) (section_name : string) :
  startup c fs = Ok a ->
  exists r,
    get_metrics_path a section_name = Ok r /\
    ((is_Some (SECTIONS_BY_NAME a !! normalize_key section_name) /\
      status r = 200 /\ body_get r "ok" = Some (VBool true)) \/
     (SECTIONS_BY_NAME a !! normalize_key section_name = None /\
      status r = 404 /\ body_get r "ok" = Some (VBool false) /\
      body_get r "error"
        = Some (VStr ("Section '" ++ section_name ++ "' not found.")) /\
      body_get r "available_sections"
        = Some (VList (VStr <$> SECTION_KEYS a)))).
Proof.
  intros Hs. pose proof (startup_booted _ _ _ Hs) as Hb.
  unfold get_metrics_path.
  destruct (format_payload_cases a section_name Hb)
    as [(entry & s & p & m & He & ->) | [He ->]]; simpl;
    eexists; (split; [reflexivity|]).
  - left. rewrite He. repeat split. now exists entry.
  - right. repeat split. exact He.
Qed.

Lemma get_metrics_path_status_witness :
  exists a r,
    startup (H := sample_repr) (sample_config "overview_core" None)
      (fs_with (VList sample_sections)) = Ok a /\
    get_metrics_path a "ROI annual" = Ok r /\ status r = 200.
Proof.
  eexists. 
  destruct (get_metrics_path_status (H := sample_repr)
              (sample_config "overview_core" None)
              (fs_with (VList sample_sections)) _ "ROI annual" eq_refl)
    as (r & Hr & [(_ & Hst & _) | (Hnone & _)]).
  - exists r. split; [vm_compute; reflexivity|]. split; [exact Hr | exact Hst].
  - vm_compute in Hnone. discriminate Hnone.
Defined.

(** X11. After start-up, two names with the same normalised form, which
    is a key of the index, get the same answer from
    [GET /metrics/<name>]: the request is insensitive to case, to
    whitespace around the name and to the separator used. *)
Theorem get_metrics_path_same_key `{Repr} (c : config) (fs : filesystem)
    (a : app) (s1 s2 : string) :
  startup c fs = Ok a ->
  normalize_key s1 = normalize_key s2 ->
  is_Some (SECTIONS_BY_NAME a !! normalize_key s1) ->
  get_metrics_path a s1 = get_metrics_path a s2.
Proof.
  intros Hs Hk Hsome. pose proof (startup_booted _ _ _ Hs) as Hb.
  unfold get_metrics_path.
  now rewrite (format_payload_same_key a s1 s2 Hb Hk Hsome).
Qed.

Lemma get_metrics_path_same_key_witness :
  exists a,
    startup (H := sample_repr) (sample_config "overview_core" None)
      (fs_with (VList sample_sections)) = Ok a /\
    get_metrics_path a " ROI-Annual" = get_metrics_path a "roi annual".
Proof.
  eexists. split; [vm_compute; reflexivity|].
  apply (get_metrics_path_same_key (H := sample_repr)
           (sample_config "overview_core" None)
           (fs_with (VList sample_sections)) _ " ROI-Annual" "roi annual"
           eq_refl eq_refl).
  vm_compute. eauto.
Defined.

(** X12. After start-up a name made of whitespace only is never found:
    [GET /metrics/<name>] answers 404, since no key of the index is
    empty. *)
Theorem blank_section_not_found `{Repr} (c : config) (fs : filesystem)
    (a : app) (section_name : string) :
  startup c fs = Ok a ->
  Str.strip section_name = "" ->
  get_metrics_path a section_name =
    Ok {| status := 404;
          body := VDict
            [ ("ok", VBool false);
              ("error", VStr ("Section '" ++ section_name ++ "' not found."));
              ("available_sections", VList (VStr <$> SECTION_KEYS a)) ] |}.
Proof.
  intros Hs Hblank. pose proof (startup_booted _ _ _ Hs) as Hb.
  unfold get_metrics_path. rewrite format_payload_missing; [reflexivity|].
  apply normalize_key_blank in Hblank. rewrite Hblank.
  now apply empty_key_absent.
Qed.

Lemma blank_section_not_found_witness :
  exists a r,
    startup (H := sample_repr) (sample_config "overview_core" None)
      (fs_with (VList sample_sections)) = Ok a /\
    get_metrics_path a "   " = Ok r /\ status r = 404.
Proof.
  eexists. eexists. split; [vm_compute; reflexivity|]. split.
  - exact (blank_section_not_found (H := sample_repr)
             (sample_config "overview_core" None)
             (fs_with (VList sample_sections)) _ "   " eq_refl eq_refl).
  - reflexivity.
Defined.

(** X13. A non-empty [section] parameter decides [GET /metrics] alone:
    the answer is that of [GET /metrics/<section>], whatever [q] is, and
    the resolver is not consulted. *)
Theorem get_metrics_query_section_first (a : app) (section_name : string)
    (q : option string) :
  Str.truthy section_name = true ->
  get_metrics_query a (Some section_name) q = get_metrics_path a section_name.
Proof.
  intros Hs. unfold get_metrics_query, get_metrics_path. simpl.
  now rewrite Hs.
Qed.

Lemma get_metrics_query_section_first_witness :
  get_metrics_query empty_app (Some "roi_annual") (Some "how is sales")
    = get_metrics_path empty_app "roi_annual".
Proof.
  exact (get_metrics_query_section_first empty_app "roi_annual"
           (Some "how is sales") eq_refl).
Defined.

(** X14. After start-up [GET /metrics] never raises, whatever its
    parameters. Its status is 200, 400 or 404; it is 200 exactly when the
    body has [ok: True]; and every other answer has [ok: False], an
    [error] text and the sorted list of keys as [available_sections]. *)
Theorem get_metrics_query_contract `{Repr} (c : config) (fs : filesystem)
    (a : app) (section q : option string) :
  startup c fs = Ok a ->
  exists r,
    get_metrics_query a section q = Ok r /\
    (status r = 200 \/ status r = 400 \/ status r = 404) /\
    (status r = 200 <-> body_get r "ok" = Some (VBool true)) /\
    (status r <> 200 ->
     body_get r "ok" = Some (VBool false) /\
     (exists msg, body_get r "error" = Some (VStr msg)) /\
     body_get r "available_sections" = Some (VList (VStr <$> SECTION_KEYS a))).
Proof.
  intros Hs. pose proof (startup_booted _ _ _ Hs) as Hb.
  unfold get_metrics_query. destruct (truthy_opt section).
  - destruct (format_payload_cases a (default "" section) Hb)
      as [(entry & s & p & m & _ & Hf) | [_ Hf]];
      unfold default, from_option, id in Hf; rewrite Hf; simpl;
      eexists; (split; [reflexivity|]); simpl.
    + split; [auto|]. split; [tauto|]. intros Hne. now destruct Hne.
    + split; [auto|]. split; [split; discriminate|]. eauto.
  - destruct (truthy_opt q).
    + destruct (choose_returns (cfg a) (default "" q) (SECTION_KEYS a))
        as [chosen Hc]. unfold default, from_option, id in Hc. rewrite Hc.
      simpl. destruct (truthy_opt chosen) eqn:Ht; simpl.
      * destruct chosen as [k|]; [|discriminate].
        destruct (format_payload_resolved _ _ _ Hb Hc)
          as (_ & _ & _ & s & p & m & ->). simpl.
        eexists; (split; [reflexivity|]); simpl.
        split; [auto|]. split; [tauto|]. intros Hne. now destruct Hne.
      * eexists; (split; [reflexivity|]); simpl.
        split; [auto|]. split; [split; discriminate|]. eauto.
    + eexists; (split; [reflexivity|]); simpl.
      split; [auto|]. split; [split; discriminate|]. eauto.
Qed.

Lemma get_metrics_query_contract_witness :
  exists a r,
    startup (H := sample_repr)
      (sample_config "overview_core" (Some (answering "sales impact")))
      (fs_with (VList sample_sections)) = Ok a /\
    get_metrics_query a None (Some "how is sales") = Ok r /\
    status r = 400 /\
    body_get r "ok" = Some (VBool false).
Proof.
  eexists.
  destruct (get_metrics_query_contract (H := sample_repr)
              (sample_config "overview_core" (Some (answering "sales impact")))
              (fs_with (VList sample_sections)) _ None (Some "how is sales")
              eq_refl) as (r & Hr & _ & _ & Hne).
  exists r. split; [vm_compute; reflexivity|]. split; [exact Hr|].
  assert (Hst : status r = 400).
  { pose proof Hr as Hv. vm_compute in Hv. injection Hv as <-. reflexivity. }
  split; [exact Hst|]. apply Hne. rewrite Hst. discriminate.
Defined.

(** X15. After start-up [GET /] never raises. When the normalised
    [DEFAULT_SECTION] is a key of the index it answers 200 with the
    configured greeting, empty or not, as [message], beside the record's
    [section], [period] and [metrics], and without an [ok] field;
    otherwise it answers 404 with the not-found dict that quotes
    [DEFAULT_SECTION]. *)
Theorem root_default_outcome `{Repr} (c : config) (fs : filesystem) (a : app) :
  startup c fs = Ok a ->
  match SECTIONS_BY_NAME a !! normalize_key (DEFAULT_SECTION c) with
  | Some entry =>
      exists d name,
        entry = VDict d /\ Dict.get "section" d = Some name /\
        root_default a =
          Ok {| status := 200;
                body := VDict
                  [ ("message", VStr (DEFAULT_GREETING c));
                    ("section", name);
                    ("period", default VNone (Dict.get "period" d));
                    ("metrics", default (VDict []) (Dict.get "metrics" d)) ] |}
  | None =>
      root_default a =
        Ok {| status := 404;
              body := VDict
                [ ("ok", VBool false);
                  ("error",
                   VStr ("Section '" ++ DEFAULT_SECTION c ++ "' not found."));
                  ("available_sections", VList (VStr <$> SECTION_KEYS a)) ] |}
  end.
Proof.
  intros Hs. pose proof (startup_booted _ _ _ Hs) as Hb.
  pose proof (startup_cfg _ _ _ Hs) as Hc. unfold root_default. rewrite Hc.
  destruct (SECTIONS_BY_NAME a !! normalize_key (DEFAULT_SECTION c))
    as [entry|] eqn:E.
  - destruct (format_payload_found _ _ _ Hb E) as (d & name & -> & Hn & ->).
    exists d, name. auto.
  - rewrite (format_payload_missing _ _ E). reflexivity.
Qed.

Lemma root_default_outcome_witness :
  exists a,
    startup (H := sample_repr) (sample_config "ROI-annual" None)
      (fs_with (VList sample_sections)) = Ok a /\
    root_default a =
      Ok {| status := 200;
            body := VDict [ ("message", VStr "Hi Alisha");
                            ("section", VStr "roi_annual");
                            ("period", VStr "2024");
                            ("metrics", VDict [("roi", VInt 3)]) ] |}.
Proof.
  eexists. split; [vm_compute; reflexivity|].
  pose proof (root_default_outcome (H := sample_repr)
                (sample_config "ROI-annual" None)
                (fs_with (VList sample_sections)) _ eq_refl) as Hr.
  vm_compute in Hr. destruct Hr as (d & name & [= <-] & [= <-] & Hr).
  vm_compute. exact Hr.
Defined.

(** ** More on the resolver and on [POST /ask] *)

(** X16. When the provider answers, the resolver looks at the first choice
    only and returns the normalised text of its content when that is one
    of the candidates, and [None] otherwise; a missing content counts as
    the empty text. Trimming and lowercasing the text before normalising
    it changes nothing. *)
Theorem choose_section_with_llm_answer (c : config) (cl : OpenAI.client)
    (query : string) (candidate_keys : list string)
    (ch : OpenAI.choice) (others : list OpenAI.choice) :
  client c = Some cl ->
  cl (chat_request_for c query candidate_keys)
    = Ok {| OpenAI.choices := ch :: others |} ->
  choose_section_with_llm c query candidate_keys =
    Ok (if mem (normalize_key (default "" (OpenAI.message_content ch)))
             candidate_keys
        then Some (normalize_key (default "" (OpenAI.message_content ch)))
        else None).
Proof.
  intros Hc Hr. unfold choose_section_with_llm. rewrite Hc, Hr. simpl.
  assert (E : (match OpenAI.message_content ch with
               | Some s => if Str.truthy s then s else ""
               | None => ""
               end) = default "" (OpenAI.message_content ch)).
  { destruct (OpenAI.message_content ch) as [[|]|]; reflexivity. }
  rewrite E, normalize_key_lower, normalize_key_strip. reflexivity.
Qed.

Lemma choose_section_with_llm_answer_witness :
  choose_section_with_llm
    (sample_config "overview_core" (Some (answering " ROI-Annual ")))
    "how is the annual roi" ["overview_core"; "roi_annual"]
  = Ok (Some "roi_annual").
Proof.
  exact (choose_section_with_llm_answer
           (sample_config "overview_core" (Some (answering " ROI-Annual ")))
           (answering " ROI-Annual ") "how is the annual roi"
           ["overview_core"; "roi_annual"]
           {| OpenAI.message_content := Some " ROI-Annual " |} []
           eq_refl eq_refl).
Defined.

Lemma init_client_none api_key make :
  truthy_opt api_key = false \/ (exists e, make (default "" api_key) = Raise e) ->
  init_client api_key make = None.
Proof.
  unfold init_client. intros [-> | [e ->]]; [reflexivity|].
  now destruct (truthy_opt api_key).
Qed.

(** X17. Without a usable API key, that is a key that is unset or empty,
    or a client whose construction raises, there is no client, and the
    free-text routes resolve nothing: [GET /metrics] with a [q] and no
    [section] answers 400 with the hint, and [POST /ask] with an object
    body that has a non-blank [q] answers 400, both listing the keys. *)
Theorem free_text_needs_client `{Repr} (a : app) (api_key : option string)
    (make : string -> result OpenAI.client) :
  client (cfg a) = init_client api_key make ->
  truthy_opt api_key = false \/
    (exists e, make (default "" api_key) = Raise e) ->
  (forall section q,
     truthy_opt section = false -> Str.truthy q = true ->
     get_metrics_query a section (Some q) =
       Ok {| status := 400;
             body := VDict
               [ ("ok", VBool false);
                 ("error", VStr "Could not infer a section from your query.");
                 ("available_sections", VList (VStr <$> SECTION_KEYS a));
                 ("hint", VStr "Try specifying ?section=<one of the keys>.") ]
          |}) /\
  (forall d,
     Str.truthy (Str.strip (py_str (default (VStr "") (Dict.get "q" d))))
       = true ->
     ask_llm_router a (VDict d) =
       Ok {| status := 400;
             body := VDict
               [ ("ok", VBool false);
                 ("error", VStr "Could not infer a section from your query.");
                 ("available_sections", VList (VStr <$> SECTION_KEYS a)) ]
          |}).
Proof.
  intros Hcl Hkey. rewrite (init_client_none _ _ Hkey) in Hcl. split.
  - intros section q Hs Hq. unfold get_metrics_query. rewrite Hs. simpl.
    rewrite Hq. now rewrite (choose_without_client _ _ _ Hcl).
  - intros d Hq.
    assert (Hne : truthy (VDict d) = true).
    { destruct d; [discriminate Hq | reflexivity]. }
    unfold ask_llm_router. rewrite Hne. simpl.
    replace (match Dict.get "q" d with Some v => v | None => VStr "" end)
      with (default (VStr "") (Dict.get "q" d))
      by (now destruct (Dict.get "q" d)).
    rewrite Hq. simpl. now rewrite (choose_without_client _ _ _ Hcl).
Qed.

Lemma free_text_needs_client_witness :
  get_metrics_query empty_app None (Some "how is sales") =
    Ok {| status := 400;
          body := VDict
            [ ("ok", VBool false);
              ("error", VStr "Could not infer a section from your query.");
              ("available_sections", VList []);
              ("hint", VStr "Try specifying ?section=<one of the keys>.") ] |}.
Proof.
  exact (proj1 (free_text_needs_client (H := sample_repr) empty_app (Some "")
                  (fun _ => Ok failing) eq_refl (or_introl eq_refl))
           None "how is sales" eq_refl eq_refl).
Defined.

Lemma ask_llm_router_on_dict `{Repr} a d :
  ask_llm_router a (VDict d) =
    let q := Str.strip (py_str (default (VStr "") (Dict.get "q" d))) in
    if negb (Str.truthy q) then Ok missing_q
    else
      let* chosen := choose_section_with_llm (cfg a) q (SECTION_KEYS a) in
      if negb (truthy_opt chosen) then
        Ok (jsonify
              [ ("ok", VBool false);
                ("error", VStr unresolved_error);
                ("available_sections", keys_value (SECTION_KEYS a)) ]
              400)
      else
        let k := match chosen with Some k => k | None => "" end in
        let* payload := format_payload a k in
        let msg :=
          if String.eqb k "overview_core"
          then VStr (DEFAULT_GREETING (cfg a)) else VNone in
        Ok (jsonify
              (Dict.merge (if truthy msg then [("message", msg)] else [])
                          payload)
              200).
Proof.
  unfold ask_llm_router. destruct d as [|kv d]; [reflexivity|].
  simpl truthy. cbv iota. unfold method_get, bind at 1.
  now destruct (Dict.get "q" (kv :: d)).
Qed.

(** X18. After start-up [POST /ask] with an object body never raises:
    provider failures and unusable answers end in a 400, not in an
    exception. The answer is 200 with [ok: True] or 400 with [ok: False]
    and an [error] text. *)
Theorem ask_llm_router_on_objects `{Repr} (c : config) (fs : filesystem)
    (a : app) (d : Dict.t) :
  startup c fs = Ok a ->
  exists r,
    ask_llm_router a (VDict d) = Ok r /\
    ((status r = 200 /\ body_get r "ok" = Some (VBool true)) \/
     (status r = 400 /\ body_get r "ok" = Some (VBool false) /\
      exists msg, body_get r "error" = Some (VStr msg))).
Proof.
  intros Hs. pose proof (startup_booted _ _ _ Hs) as Hb.
  rewrite ask_llm_router_on_dict. cbv zeta.
  destruct (Str.truthy (Str.strip (py_str (default (VStr "") (Dict.get "q" d)))));
    simpl; [|eexists; split; [reflexivity|]; right; simpl; eauto].
  match goal with |- context [choose_section_with_llm ?c ?q ?ks] =>
    destruct (choose_returns c q ks) as [chosen Hc] end.
  rewrite Hc. simpl. destruct (truthy_opt chosen) eqn:Ht; simpl;
    [|eexists; split; [reflexivity|]; right; simpl; eauto].
  destruct chosen as [k|]; [|discriminate].
  destruct (format_payload_resolved _ _ _ Hb Hc)
    as (_ & _ & _ & s & p & m & ->). simpl.
  eexists; split; [reflexivity|]. left. split; [reflexivity|].
  destruct (String.eqb k "overview_core"); simpl; [|reflexivity].
  destruct (Str.truthy (DEFAULT_GREETING (cfg a))); reflexivity.
Qed.

Lemma ask_llm_router_on_objects_witness :
  exists a r,
    startup (H := sample_repr)
      (sample_config "overview_core" (Some failing))
      (fs_with (VList sample_sections)) = Ok a /\
    ask_llm_router (H := sample_repr) a (VDict [("q", VStr "how is sales")])
      = Ok r /\
    status r = 400.
Proof.
  eexists.
  destruct (ask_llm_router_on_objects (H := sample_repr)
              (sample_config "overview_core" (Some failing))
              (fs_with (VList sample_sections)) _
              [("q", VStr "how is sales")] eq_refl)
    as (r & Hr & Hcases).
  exists r. split; [vm_compute; reflexivity|]. split; [exact Hr|].
  pose proof Hr as Hv. vm_compute in Hv. injection Hv as <-. reflexivity.
Defined.

(** X19. The answer of [POST /ask] to an object body depends on the body
    only through the trimmed [str()] of its [q]: other fields are
    ignored, and a [q] that is not a string is read through [str()], so
    that a JSON [null] is the query [None] and not a missing [q]. *)
Theorem ask_llm_router_reads_q_only `{Repr} (a : app) (d1 d2 : Dict.t) :
  Str.strip (py_str (default (VStr "") (Dict.get "q" d1)))
    = Str.strip (py_str (default (VStr "") (Dict.get "q" d2))) ->
  ask_llm_router a (VDict d1) = ask_llm_router a (VDict d2).
Proof.
  intros E. rewrite !ask_llm_router_on_dict. cbv zeta. now rewrite E.
Qed.

Lemma ask_llm_router_reads_q_only_witness :
  ask_llm_router (H := sample_repr) empty_app (VDict [("q", VNone)])
    = ask_llm_router (H := sample_repr) empty_app
        (VDict [("user", VStr "alisha"); ("q", VStr " None ")]).
Proof.
  exact (ask_llm_router_reads_q_only (H := sample_repr) empty_app
           [("q", VNone)] [("user", VStr "alisha"); ("q", VStr " None ")]
           eq_refl).
Defined.

(** X20. An object body gets the 400 answer for a missing [q] exactly
    when it has no [q] or the [str()] of its [q] is whitespace only; the
    resolver is then not consulted. *)
Theorem ask_llm_router_missing_q_iff `{Repr} (a : app) (d : Dict.t) :
  ask_llm_router a (VDict d) = Ok missing_q <->
  Str.strip (py_str (default (VStr "") (Dict.get "q" d))) = "".
Proof.
  rewrite ask_llm_router_on_dict. cbv zeta.
  rewrite <- StrMore.truthy_empty.
  destruct (Str.truthy (Str.strip (py_str (default (VStr "") (Dict.get "q" d)))));
    simpl; [|tauto].
  split; [|discriminate]. intros E. exfalso.
  destruct (choose_section_with_llm _ _ _) as [chosen|]; simpl in E;
    [|discriminate].
  destruct (truthy_opt chosen); simpl in E; [|discriminate].
  destruct (format_payload _ _); simpl in E; discriminate.
Qed.
